(** * terminal-agent: the tool-calling core of [terminal_agent/agent.py]

    A shallow embedding of the dangerous-command interceptor, the permission
    gate, the tool executors, the tool dispatcher and the conversation loop,
    followed by the properties the specification states about them.

    Conventions of the embedding.
    - Python [str] values are [string]s of 8-bit characters, read as the code
      points below 256.  Which texts the UTF-8 codec refuses (those with a
      lone surrogate, which 8-bit characters cannot show) is the [Runtime]'s
      [encodable].
    - A file holds the text that decoding its bytes gives, before the
      translation of newlines that reading in text mode makes.
    - A Python [dict] with string keys is a [gmap string _]; the result
      dictionaries, whose key order [json.dumps] preserves, are association
      lists.
    - Effects (the file system, the terminal, the subprocess, the model
      service) are threaded through a state-and-exception monad [M]; what the
      standard library and the services do is taken from a [Runtime]. *)

From Stdlib Require Import ZArith Ascii String List Lia Bool.
From stdpp Require Import base option gmap strings pretty.
Import ListNotations.

#[local] Set Warnings "-register-all".
Local Open Scope Z_scope.
Local Open Scope string_scope.

(** ** Python string primitives *)

Module PyStr.

(** The character [\n]. *)
Definition nl : ascii := ascii_of_nat 10.

Definition nl_str : string := String nl EmptyString.

(** The character [\r]. *)
Definition cr : ascii := ascii_of_nat 13.

(** What reading in text mode makes of the text of a file, with
    [newline=None]: each [\r\n] and each remaining [\r] becomes [\n]. *)
Fixpoint universal_newlines (s : string) : string :=
  match s with
  | EmptyString => EmptyString
  | String c s' =>
      if Ascii.eqb c cr then
        String nl
          match s' with
          | EmptyString => EmptyString
          | String c' s'' =>
              if Ascii.eqb c' nl then universal_newlines s''
              else universal_newlines s'
          end
      else String c (universal_newlines s')
  end.

(** [s[n:]] for a non-negative [n]. *)
Fixpoint drop_str (n : nat) (s : string) : string :=
  match n, s with
  | O, _ => s
  | S _, EmptyString => EmptyString
  | S k, String _ s' => drop_str k s'
  end.

(** [s[:n]] for a non-negative [n]. *)
Fixpoint take_str (n : nat) (s : string) : string :=
  match n, s with
  | O, _ => EmptyString
  | S _, EmptyString => EmptyString
  | S k, String c s' => String c (take_str k s')
  end.

(** The scan of [str.count] for a non-empty [sub]: matches are counted from
    left to right and a match consumes its characters, so [skip] characters
    are passed over after each one. *)
Fixpoint count_from (sub : string) (skip : nat) (s : string) : nat :=
  match s with
  | EmptyString => O
  | String _ s' =>
      match skip with
      | S k => count_from sub k s'
      | O =>
          if String.prefix sub s
          then S (count_from sub (String.length sub - 1) s')
          else count_from sub 0 s'
      end
  end.

(** [s.count(sub)]: the empty string is counted once between any two
    characters and at both ends. *)
Definition count (s sub : string) : nat :=
  match sub with
  | EmptyString => S (String.length s)
  | String _ _ => count_from sub 0 s
  end.

(** [s.replace(old, new, 1)]: the leftmost occurrence is replaced; an empty
    [old] matches at the start. *)
Fixpoint replace_first (s old new : string) : string :=
  if String.prefix old s
  then new +:+ drop_str (String.length old) s
  else match s with
       | EmptyString => EmptyString
       | String c s' => String c (replace_first s' old new)
       end.

(** [s.split('\n')]. *)
Fixpoint split_nl (s : string) : list string :=
  match s with
  | EmptyString => [EmptyString]
  | String c s' =>
      if Ascii.eqb c nl then EmptyString :: split_nl s'
      else match split_nl s' with
           | h :: t => String c h :: t
           | [] => [String c EmptyString]
           end
  end.

(** ['\n'.join(ls)]. *)
Definition join_nl (ls : list string) : string := String.concat nl_str ls.

(** [ls[:n]] and [ls[-n:]] for a non-negative [n]; [ls[-0:]] is all of [ls]. *)
Definition head_slice {A} (n : nat) (ls : list A) : list A := firstn n ls.

Definition tail_slice {A} (n : nat) (ls : list A) : list A :=
  match n with
  | O => ls
  | S _ => skipn (length ls - n) ls
  end.

Definition is_space (c : ascii) : bool :=
  let n := nat_of_ascii c in
  ((9 <=? n) && (n <=? 13) || (28 <=? n) && (n <=? 32)
   || (n =? 133) || (n =? 160))%nat.

Definition is_upper (c : ascii) : bool :=
  let n := nat_of_ascii c in ((65 <=? n) && (n <=? 90))%nat.

Definition is_lower (c : ascii) : bool :=
  let n := nat_of_ascii c in ((97 <=? n) && (n <=? 122))%nat.

(** Case mapping of the ASCII letters. *)
Definition lower_char (c : ascii) : ascii :=
  if is_upper c then ascii_of_nat (nat_of_ascii c + 32) else c.

Definition upper_char (c : ascii) : ascii :=
  if is_lower c then ascii_of_nat (nat_of_ascii c - 32) else c.

Fixpoint lower (s : string) : string :=
  match s with
  | EmptyString => EmptyString
  | String c s' => String (lower_char c) (lower s')
  end.

Fixpoint lstrip (s : string) : string :=
  match s with
  | EmptyString => EmptyString
  | String c s' => if is_space c then lstrip s' else s
  end.

Fixpoint rstrip (s : string) : string :=
  match s with
  | EmptyString => EmptyString
  | String c s' =>
      match rstrip s' with
      | EmptyString => if is_space c then EmptyString else String c EmptyString
      | r => String c r
      end
  end.

(** [s.strip()]. *)
Definition strip (s : string) : string := rstrip (lstrip s).

End PyStr.

(** ** Shell execution: input clamping and output shaping *)

(** [max(1, min(600, timeout))] on integers. *)
Definition clamp_timeout (timeout : Z) : Z := Z.max 1 (Z.min 600 timeout).

(** The nested [truncate_output] of [run_bash]; [output_lines] is the
    enclosing function's variable. *)
Definition truncate_output (output_lines : string) (text : string)
    (max_lines : nat) : string :=
  let lines := PyStr.split_nl text in
  if (length lines <=? max_lines)%nat || String.eqb output_lines "all" then text
  else
    let omitted := (length lines - max_lines)%nat in
    if String.eqb output_lines "first" then
      PyStr.join_nl (PyStr.head_slice max_lines lines)
        +:+ PyStr.nl_str +:+ "... (" +:+ pretty omitted +:+ " more lines)"
    else if String.eqb output_lines "last" then
      "... (" +:+ pretty omitted +:+ " lines omitted)" +:+ PyStr.nl_str
        +:+ PyStr.join_nl (PyStr.tail_slice max_lines lines)
    else
      let half := (max_lines / 2)%nat in
      let first_part := PyStr.join_nl (PyStr.head_slice half lines) in
      let last_part := PyStr.join_nl (PyStr.tail_slice half lines) in
      first_part +:+ PyStr.nl_str +:+ "... (" +:+ pretty omitted
        +:+ " lines omitted) ..." +:+ PyStr.nl_str +:+ last_part.

(** ** Regular expressions: the fragment of [re] the pattern table uses *)

Module Re.

Inductive regex : Type :=
| Eps                                   (* the empty pattern *)
| Lit (c : ascii)                       (* a literal or escaped character *)
| AnyChar                               (* [.] : any character but a newline *)
| Space                                 (* [\s] *)
| Class (ranges : list (ascii * ascii)) (* [[a-zA-Z]], [[06]] *)
| WordBoundary                          (* [\b] *)
| EndAnchor                             (* [$] *)
| Seq (r1 r2 : regex)
| Alt (r1 r2 : regex)
| Star (r : regex).

Definition Plus (r : regex) : regex := Seq r (Star r).

Fixpoint lit (s : string) : regex :=
  match s with
  | EmptyString => Eps
  | String c EmptyString => Lit c
  | String c s' => Seq (Lit c) (lit s')
  end.

Fixpoint seqs (rs : list regex) : regex :=
  match rs with
  | [] => Eps
  | [r] => r
  | r :: rs' => Seq r (seqs rs')
  end.

Fixpoint alts (r : regex) (rs : list regex) : regex :=
  match rs with
  | [] => r
  | r' :: rs' => Alt r (alts r' rs')
  end.

(** [\w] on the code points below 256: letters, digits, the numeric
    superscripts and fractions, and the underscore. *)
Definition is_word (c : ascii) : bool :=
  let n := nat_of_ascii c in
  ((48 <=? n) && (n <=? 57) || (65 <=? n) && (n <=? 90) || (n =? 95)
   || (97 <=? n) && (n <=? 122)
   || (n =? 170) || (n =? 178) || (n =? 179) || (n =? 181)
   || (n =? 185) || (n =? 186) || (188 <=? n) && (n <=? 190)
   || (192 <=? n) && (n <=? 214) || (216 <=? n) && (n <=? 246)
   || (248 <=? n))%nat.

Definition in_range (c : ascii) (r : ascii * ascii) : bool :=
  ((nat_of_ascii (fst r) <=? nat_of_ascii c)
   && (nat_of_ascii c <=? nat_of_ascii (snd r)))%nat.

(** Under [re.IGNORECASE] a character is in a class when it, its lower case
    or its upper case is. *)
Definition in_class (ranges : list (ascii * ascii)) (c : ascii) : bool :=
  existsb (fun r => in_range c r || in_range (PyStr.lower_char c) r
                    || in_range (PyStr.upper_char c) r) ranges.

Definition lit_eq (c x : ascii) : bool :=
  Ascii.eqb (PyStr.lower_char c) (PyStr.lower_char x).

(** A position in the subject: the character before it, if any, and the
    characters from it on. *)
Definition cursor : Type := option ascii * list ascii.

Definition word_before (p : cursor) : bool :=
  match fst p with Some c => is_word c | None => false end.

Definition word_after (p : cursor) : bool :=
  match snd p with c :: _ => is_word c | [] => false end.

(** [$] without [re.MULTILINE]: the end, or just before a final newline. *)
Definition at_end (p : cursor) : bool :=
  match snd p with
  | [] => true
  | [c] => Ascii.eqb c PyStr.nl
  | _ => false
  end.

Definition step_char (ok : ascii -> bool) (p : cursor)
    (k : cursor -> bool) : bool :=
  match snd p with
  | x :: t => if ok x then k (Some x, t) else false
  | [] => false
  end.

(** [rmatch r p k]: some match of [r] from [p] ends at a position accepted
    by [k].  A round of a star that consumes nothing is not repeated. *)
Fixpoint rmatch (r : regex) (p : cursor) (k : cursor -> bool) : bool :=
  match r with
  | Eps => k p
  | Lit c => step_char (lit_eq c) p k
  | AnyChar => step_char (fun x => negb (Ascii.eqb x PyStr.nl)) p k
  | Space => step_char PyStr.is_space p k
  | Class ranges => step_char (in_class ranges) p k
  | WordBoundary => if xorb (word_before p) (word_after p) then k p else false
  | EndAnchor => if at_end p then k p else false
  | Seq r1 r2 => rmatch r1 p (fun q => rmatch r2 q k)
  | Alt r1 r2 => if rmatch r1 p k then true else rmatch r2 p k
  | Star r1 =>
      (fix rounds (n : nat) (p : cursor) {struct n} : bool :=
         if k p then true
         else match n with
              | O => false
              | S n' =>
                  rmatch r1 p
                    (fun q => if (length (snd q) <? length (snd p))%nat
                              then rounds n' q else false)
              end) (length (snd p)) p
  end.

Fixpoint search_from (r : regex) (prev : option ascii)
    (s : list ascii) : bool :=
  if rmatch r (prev, s) (fun _ => true) then true
  else match s with
       | [] => false
       | x :: t => search_from r (Some x) t
       end.

(** [re.search(pattern, s, re.IGNORECASE) is not None]. *)
Definition search (r : regex) (s : string) : bool :=
  search_from r None (list_ascii_of_string s).

End Re.

(** ** The dangerous-command blocklist *)

Section Patterns.
Import Re.

Let az : regex := Class [("a", "z")]%char.
Let azAZ : regex := Class [("a", "z"); ("A", "Z")]%char.
Let sp_plus : regex := Plus Space.
Let sp_star : regex := Star Space.
Let any_star : regex := Star AnyChar.

(** The three [rm] patterns: [rm], blanks, any number of option groups
    (a dash and letters), optional blanks, [-rf], blanks, then [target]. *)
Let rm_rf (target : regex) : regex :=
  seqs [lit "rm"; sp_plus; Star (Seq (Lit "-") (Star azAZ)); sp_star;
        lit "-rf"; sp_plus; target].

(** The two [chmod] mode patterns: [chmod], blanks, any number of option
    groups each followed by blanks, the mode [bits], blanks, a slash. *)
Let chmod_bits (bits : string) : regex :=
  seqs [lit "chmod"; sp_plus; Star (seqs [Lit "-"; Star azAZ; sp_plus]);
        lit bits; sp_plus; Lit "/"].

(** The recursive [chmod] and [chown] patterns: [cmd], blanks, anything,
    [-R], blanks, anything, blanks, a slash, optional blanks, the end. *)
Let recursive_on_root (cmd : string) : regex :=
  seqs [lit cmd; sp_plus; any_star; lit "-R"; sp_plus; any_star; sp_plus;
        Lit "/"; sp_star; EndAnchor].

(** The word [w] between two word boundaries. *)
Let whole_word (w : string) : regex :=
  seqs [WordBoundary; lit w; WordBoundary].

(** The table, in the order of the source dictionary. *)
Definition DANGEROUS_PATTERNS : list (regex * string) :=
  [ (rm_rf (Lit "/"),
     "Recursively deletes the entire filesystem starting from root - would destroy the operating system and all data");
    (rm_rf (lit "/*"),
     "Deletes everything in the root directory - equivalent to wiping the entire system");
    (rm_rf (Lit "~"),
     "Recursively deletes your entire home folder - all your personal files, configs, and data");
    (lit "mkfs.",
     "Formats a filesystem - would erase all data on the target disk/partition");
    (seqs [lit "dd"; sp_plus; any_star; lit "if=/dev/";
           alts (lit "zero") [lit "random"; lit "urandom"];
           any_star; lit "of=/dev/"; az],
     "Overwrites an entire disk with zeros/random data - complete data destruction");
    (seqs [Lit ">"; sp_star; lit "/dev/"; az; Lit "d"; az],
     "Redirects output to overwrite a raw disk device - destroys all data");
    (seqs [lit "shred"; sp_plus; any_star;
           alts (Seq (lit "/dev/") az)
                [lit "/boot"; lit "/etc"; lit "/usr"; lit "/var"]],
     "Securely wipes system-critical locations - unrecoverable destruction");
    (seqs [lit ":()"; sp_star; Lit "{"; sp_star; Lit ":"; sp_star; Lit "|";
           sp_star; Lit ":"; sp_star; Lit "&"; sp_star; Lit "}"; sp_star;
           Lit ";"; sp_star; Lit ":"],
     "Fork bomb - spawns infinite processes until the system crashes from resource exhaustion");
    (chmod_bits "777",
     "Makes the entire filesystem world-readable/writable - catastrophic security vulnerability");
    (chmod_bits "000",
     "Removes all permissions from the entire filesystem - system becomes unusable");
    (recursive_on_root "chmod",
     "Recursively changes permissions on root filesystem - can break the entire system");
    (recursive_on_root "chown",
     "Recursively changes ownership of root filesystem - can break the entire system");
    (whole_word "shutdown", "Shuts down the computer");
    (whole_word "reboot", "Reboots the computer");
    (whole_word "poweroff", "Powers off the computer");
    (whole_word "halt", "Halts the system");
    (seqs [WordBoundary; lit "init"; sp_plus; Class [("0", "0"); ("6", "6")]%char;
           WordBoundary],
     "Changes system runlevel to shutdown (0) or reboot (6)");
    (seqs [lit "kill"; sp_plus; lit "-9"; sp_plus; lit "-1"],
     "Sends SIGKILL to ALL processes - crashes the entire system immediately");
    (seqs [Lit ">"; sp_star; lit "/etc/passwd"],
     "Overwrites the user database - locks everyone out of the system");
    (seqs [Lit ">"; sp_star; lit "/etc/shadow"],
     "Overwrites the password database - breaks all authentication");
    (seqs [lit "rm"; sp_plus; any_star;
           alts (lit "/etc/passwd") [lit "/etc/shadow"; lit "/etc/sudoers"]],
     "Deletes critical authentication files - breaks system security");
    (seqs [lit "iptables"; sp_plus; lit "-F"],
     "Flushes all firewall rules - removes network security protections");
    (seqs [lit "ufw"; sp_plus; lit "disable"],
     "Disables the firewall entirely - exposes system to network attacks") ].

End Patterns.

(** The loop of [check_dangerous_command] over the table: the explanation of
    the first pattern found in [command]. *)
Fixpoint first_match (table : list (Re.regex * string))
    (command : string) : option string :=
  match table with
  | [] => None
  | (pattern, explanation) :: rest =>
      if Re.search pattern command then Some explanation
      else first_match rest command
  end.

(** ** Values, exceptions and result envelopes *)

(** The JSON scalars a tool call's argument can be. *)
Inductive pyval : Type :=
| VNone
| VBool (b : bool)
| VInt (n : Z)
| VStr (s : string).

(** [str(v)], as an f-string renders a value. *)
Definition py_str (v : pyval) : string :=
  match v with
  | VNone => "None"
  | VBool true => "True"
  | VBool false => "False"
  | VInt n => pretty n
  | VStr s => s
  end.

(** Truth value of [v] in a condition. *)
Definition truthy (v : pyval) : bool :=
  match v with
  | VNone => false
  | VBool b => b
  | VInt n => negb (Z.eqb n 0)
  | VStr s => negb (String.eqb s "")
  end.

Inductive exn_kind : Type :=
| TypeError | AttributeError | ValueError | IndexError
| FileNotFoundError | IsADirectoryError | NotADirectoryError | OSError
| UnicodeEncodeError | TimeoutExpired | ConnectionError
| EOFError | KeyboardInterrupt.

(** An exception: its class and [str(e)].  The texts of the exceptions the
    interpreter raises are shortened. *)
Record exn : Type := Exn { kind : exn_kind; text : string }.

(** [isinstance(e, Exception)]: all the classes above but
    [KeyboardInterrupt]. *)
Definition is_Exception (e : exn) : bool :=
  match kind e with
  | KeyboardInterrupt => false
  | _ => true
  end.

(** What the executors return and [json.dumps] receives. *)
Inductive jval : Type :=
| JNull
| JBool (b : bool)
| JInt (n : Z)
| JStr (s : string)
| JList (items : list jval)
| JDict (fields : list (string * jval)).

Definition jdict : Type := list (string * jval).

(** [d.get(key)] on a result dictionary. *)
Fixpoint field (key : string) (d : jdict) : option jval :=
  match d with
  | [] => None
  | (k, v) :: rest => if String.eqb k key then Some v else field key rest
  end.

(** The text [json.dumps(d)] or [json.dumps(d, indent=2)], kept symbolic:
    [json.loads] of it is [payload]. *)
Record json_text : Type := Dumps { payload : jdict; indent : option nat }.

Definition json_dumps (d : jdict) : json_text := Dumps d None.
Definition json_dumps_indent (d : jdict) (n : nat) : json_text :=
  Dumps d (Some n).

(** ** The world the agent acts on *)

Inductive PermissionMode : Type := DEFAULT | ACCEPT_EDITS | YOLO.

(** An entry of the file system: a directory, or a file that holds text
    (its bytes decoded as UTF-8, newlines as they are stored).  A file
    whose bytes are no UTF-8 text has no entry: reading it is one of the
    errors of [open_error] below. *)
Inductive node : Type :=
| File (content : string)
| Directory.

(** What [input()] meets: a line, Ctrl-C, or the end of the input. *)
Inductive reply : Type :=
| Line (s : string)
| CtrlC
| EndOfInput.

Record tool_call : Type :=
  ToolCall { call_name : string; call_arguments : gmap string pyval }.

Inductive message : Type :=
| UserMessage (content : string)
| AssistantMessage (content thinking : option string)
    (tool_calls : list tool_call)
| ToolMessage (tool_name : string) (content : json_text).

(** A [ChatResponse]: the fields of its assistant message and the two usage
    counters. *)
Record ChatResponse : Type := {
  response_content : option string;
  response_thinking : option string;
  response_tool_calls : list tool_call;
  prompt_eval_count : option Z;
  eval_count : option Z
}.

(** Effects visible outside the process, in the order they happen. *)
Inductive event : Type :=
| EvPrompt (action details : string)     (* [prompt_user] asked the user *)
| EvToolCall (line : string)             (* the tool-call line was printed *)
| EvShell (command : string) (timeout : Z) (* [subprocess.run] was called *)
| EvWebSearch (arguments : gmap string pyval)
| EvWebFetch (arguments : gmap string pyval)
| EvChat (history : list message)        (* the model service was called *)
| EvModelError (e : exn).                (* "Error calling model" printed *)

Record World : Type := {
  PERMISSION_MODE : PermissionMode;  (* the global of that name *)
  fs : gmap string node;             (* the file system, by resolved path *)
  stdin : list reply;                (* what the user will answer *)
  messages : list message;           (* [messages] of [run_agent] *)
  tokens : Z * Z;                    (* [tokens.total_input], [total_output] *)
  log : list event                   (* effects so far, oldest first *)
}.

Definition with_fs (f : gmap string node) (w : World) : World :=
  {| PERMISSION_MODE := PERMISSION_MODE w; fs := f; stdin := stdin w;
     messages := messages w; tokens := tokens w; log := log w |}.

Definition with_stdin (i : list reply) (w : World) : World :=
  {| PERMISSION_MODE := PERMISSION_MODE w; fs := fs w; stdin := i;
     messages := messages w; tokens := tokens w; log := log w |}.

Definition with_messages (m : list message) (w : World) : World :=
  {| PERMISSION_MODE := PERMISSION_MODE w; fs := fs w; stdin := stdin w;
     messages := m; tokens := tokens w; log := log w |}.

Definition with_tokens (t : Z * Z) (w : World) : World :=
  {| PERMISSION_MODE := PERMISSION_MODE w; fs := fs w; stdin := stdin w;
     messages := messages w; tokens := t; log := log w |}.

Definition with_log (l : list event) (w : World) : World :=
  {| PERMISSION_MODE := PERMISSION_MODE w; fs := fs w; stdin := stdin w;
     messages := messages w; tokens := tokens w; log := l |}.

(** A finished subprocess. *)
Record CompletedProcess : Type := {
  returncode : Z;
  stdout : string;
  stderr : string
}.

Record SearchHit : Type := {
  hit_title : string; hit_url : string; hit_content : string
}.

Record FetchedPage : Type := {
  page_title : string; page_content : string; page_links : list string
}.

(** What the embedding takes from outside the repository: [pathlib], [repr],
    the operating system, the [ollama] client. *)
Class Runtime : Type := {
  (* [Path(p).expanduser()], made absolute against the working directory *)
  resolve : string -> string;
  (* [Path(p).relative_to(Path.cwd())]; [None] is its [ValueError] *)
  relative_to_cwd : string -> option string;
  (* [repr] of a [str], [str] of an argument [dict] *)
  repr : string -> string;
  str_of_dict : gmap string pyval -> string;
  (* [path.parent.mkdir(parents=True, exist_ok=True)] *)
  mkdir_parents : string -> gmap string node -> exn + gmap string node;
  (* what resolving, opening and reading a name that is no entry of the
     file system raises: [FileNotFoundError], or [NotADirectoryError] below
     a regular file, [ValueError] for a null byte, [OSError] for a name too
     long, a decoding error for bytes that are no text *)
  open_error : string -> gmap string node -> exn;
  (* whether the UTF-8 codec encodes a text *)
  encodable : string -> bool;
  (* [sorted(path.iterdir())]: names, and whether each is a directory *)
  iterdir : string -> gmap string node -> exn + list (string * bool);
  (* [subprocess.run(command, shell=True, ..., timeout=t)], called without
     [stdin=]: the child has the file system and the terminal input of the
     agent; what the call returns or raises, and what it leaves of both *)
  subprocess_run :
    string -> Z -> gmap string node -> list reply ->
    (exn + CompletedProcess) * gmap string node * list reply;
  (* [ollama.web_search], [ollama.web_fetch], [ollama.chat] *)
  web_search : gmap string pyval -> exn + list SearchHit;
  web_fetch : gmap string pyval -> exn + FetchedPage;
  chat : list message -> exn + ChatResponse
}.

(** ** The monad of effects *)

Inductive outcome (A : Type) : Type :=
| Ret (a : A)
| Raise (e : exn).
Arguments Ret {A} a.
Arguments Raise {A} e.

Definition M (A : Type) : Type := World -> outcome A * World.

Definition ret {A} (a : A) : M A := fun w => (Ret a, w).

Definition raise {A} (k : exn_kind) (msg : string) : M A :=
  fun w => (Raise (Exn k msg), w).

Definition reraise {A} (e : exn) : M A := fun w => (Raise e, w).

Definition bind {A B} (m : M A) (f : A -> M B) : M B :=
  fun w => match m w with
           | (Ret a, w') => f a w'
           | (Raise e, w') => (Raise e, w')
           end.

Notation "x <- m ;; k" := (bind m (fun x => k))
  (at level 100, m at next level, right associativity).
Notation "m ;;; k" := (bind m (fun _ => k))
  (at level 100, right associativity).

Definition get : M World := fun w => (Ret w, w).

Definition modify (f : World -> World) : M unit := fun w => (Ret tt, f w).

Definition emit (e : event) : M unit :=
  modify (fun w => with_log (log w ++ [e]) w).

(** Lift a result of the [Runtime]. *)
Definition lift {A} (r : exn + A) : M A :=
  match r with
  | inl e => reraise e
  | inr a => ret a
  end.

(** [try: body; except ...: handler]: [handler e] is [None] when no clause
    catches [e].  What [body] did before raising stays done. *)
Definition try_except {A} (body : M A) (handler : exn -> option (M A)) : M A :=
  fun w => match body w with
           | (Ret a, w') => (Ret a, w')
           | (Raise e, w') =>
               match handler e with
               | Some h => h w'
               | None => (Raise e, w')
               end
           end.

(** The clause [except Exception as e: return {"success": False,
    "error": str(e)}] that closes every executor. *)
Definition failure (msg : string) : jdict :=
  [("success", JBool false); ("error", JStr msg)].

Definition except_Exception (e : exn) : option (M jdict) :=
  if is_Exception e then Some (ret (failure (text e))) else None.

(** ** The tools *)

(** The three dictionaries [edit_file] returns once the file is read. *)
Definition not_found_result (full_path : string) : jdict :=
  [("success", JBool false); ("error", JStr "old_text not found in file");
   ("path", JStr full_path)].

Definition ambiguous_result (count : nat) (full_path : string) : jdict :=
  [("success", JBool false);
   ("error",
    JStr ("old_text appears " +:+ pretty count
          +:+ " times in file - include more surrounding context to make it unique"));
   ("path", JStr full_path)].

Definition edited_result (full_path : string) : jdict :=
  [("success", JBool true); ("path", JStr full_path); ("action", JStr "edited")].

Section Agent.
Context `{R : Runtime}.

(** [Path(v)] accepts a [str] only. *)
Definition as_path (v : pyval) : M string :=
  match v with
  | VStr s => ret s
  | _ => raise TypeError "expected str, bytes or os.PathLike object"
  end.

Definition resolve_path (path_str : pyval) : M string :=
  p <- as_path path_str ;; ret (resolve p).

Definition to_relative_path (path_str : pyval) : M string :=
  p <- as_path path_str ;;
  match relative_to_cwd p with
  | Some rel => ret ("./" +:+ rel)
  | None => ret p
  end.

(** [path.read_text(encoding="utf-8")]: the file is read in text mode, so
    the newlines of its text are translated. *)
Definition read_text (full_path : string) : M string :=
  w <- get ;;
  match fs w !! full_path with
  | Some (File content) => ret (PyStr.universal_newlines content)
  | Some Directory => raise IsADirectoryError "Is a directory"
  | None => reraise (open_error full_path (fs w))
  end.

(** [path.write_text(content, encoding="utf-8")]: the type of the data is
    checked first; opening for writing creates the file or empties it, and
    the text is encoded after that, so a text the codec refuses leaves the
    file empty.  Writing translates no character where the line separator
    is [\n]. *)
Definition write_text (full_path : string) (content : pyval) : M unit :=
  match content with
  | VStr c =>
      w <- get ;;
      match fs w !! full_path with
      | Some Directory => raise IsADirectoryError "Is a directory"
      | _ =>
          if encodable c then
            modify (fun w => with_fs (<[full_path := File c]> (fs w)) w)
          else
            modify (fun w => with_fs (<[full_path := File ""]> (fs w)) w) ;;;
            raise UnicodeEncodeError "surrogates not allowed"
      end
  | _ => raise TypeError "data must be str"
  end.

Definition read_file (filename : pyval) : M jdict :=
  try_except
    (full_path <- resolve_path filename ;;
     content <- read_text full_path ;;
     ret [("success", JBool true); ("file_path", JStr full_path);
          ("content", JStr content)])
    (fun e =>
       match kind e with
       | FileNotFoundError =>
           Some (ret (failure ("File not found: " +:+ py_str filename)))
       | _ => except_Exception e
       end).

Definition list_files (path : pyval) : M jdict :=
  try_except
    (full_path <- resolve_path path ;;
     w <- get ;;
     match fs w !! full_path with
     | Some Directory =>
         entries <- lift (iterdir full_path (fs w)) ;;
         let items :=
           map (fun e : string * bool =>
                  JDict [("name", JStr (fst e));
                         ("type", JStr (if snd e then "directory" else "file"))])
               entries in
         ret [("success", JBool true); ("path", JStr full_path);
              ("items", JList items)]
     | _ => ret (failure ("Not a directory: " +:+ py_str path))
     end)
    except_Exception.

Definition write_file (path content : pyval) : M jdict :=
  try_except
    (full_path <- resolve_path path ;;
     w <- get ;;
     fs' <- lift (mkdir_parents full_path (fs w)) ;;
     modify (with_fs fs') ;;;
     write_text full_path content ;;;
     ret [("success", JBool true); ("path", JStr full_path);
          ("action", JStr "created")])
    except_Exception.

(** [content.count(old_text)] and [content.replace(old_text, new_text, 1)]
    accept [str] arguments only. *)
Definition str_count (content : string) (sub : pyval) : M nat :=
  match sub with
  | VStr s => ret (PyStr.count content s)
  | _ => raise TypeError "must be str"
  end.

Definition str_replace_first (content old : string) (new : pyval) : M string :=
  match new with
  | VStr n => ret (PyStr.replace_first content old n)
  | _ => raise TypeError "replace() argument 2 must be str"
  end.

Definition edit_file (path old_text new_text : pyval) : M jdict :=
  try_except
    (full_path <- resolve_path path ;;
     w <- get ;;
     match fs w !! full_path with
     | None => ret (failure ("File not found: " +:+ py_str path))
     | Some _ =>
         content <- read_text full_path ;;
         count <- str_count content old_text ;;
         if (count =? 0)%nat then ret (not_found_result full_path)
         else if (1 <? count)%nat then ret (ambiguous_result count full_path)
         else
           new_content <-
             str_replace_first content (py_str old_text) new_text ;;
           write_text full_path (VStr new_content) ;;;
           ret (edited_result full_path)
     end)
    except_Exception.

(** [re.search] accepts a [str] subject only; it is reached for the first
    pattern of the table whatever the command. *)
Definition check_dangerous_command (command : pyval) : M (bool * string) :=
  match command with
  | VStr c =>
      match first_match DANGEROUS_PATTERNS c with
      | Some explanation => ret (true, explanation)
      | None => ret (false, "")
      end
  | _ => raise TypeError "expected string or bytes-like object"
  end.

(** The operand of [min] and [max] against an [int]: integers, and booleans
    as 0 and 1. *)
Definition as_number (v : pyval) : M Z :=
  match v with
  | VInt n => ret n
  | VBool b => ret (Z.b2z b)
  | _ => raise TypeError "'<' not supported between instances"
  end.

Definition known_output_lines : list string := ["first"; "last"; "both"; "all"].

(** [if output_lines not in (...): output_lines = "both"]. *)
Definition effective_output_lines (output_lines : pyval) : string :=
  match output_lines with
  | VStr s => if existsb (String.eqb s) known_output_lines then s else "both"
  | _ => "both"
  end.

(** The call of [subprocess.run]. *)
Definition run_subprocess (command : string) (timeout : Z)
    : M CompletedProcess :=
  emit (EvShell command timeout) ;;;
  w <- get ;;
  let '(result, fs', stdin') :=
    subprocess_run command timeout (fs w) (stdin w) in
  modify (with_fs fs') ;;;
  modify (with_stdin stdin') ;;;
  lift result.

Definition run_bash (command timeout output_lines : pyval) : M jdict :=
  danger_check <- check_dangerous_command command ;;
  if fst danger_check then
    ret [("success", JBool false); ("blocked", JBool true);
         ("error",
          JStr "BLOCKED: This command is dangerous and cannot be executed.");
         ("command", JStr (py_str command));
         ("reason", JStr (snd danger_check))]
  else
    timeout <- (n <- as_number timeout ;; ret (clamp_timeout n)) ;;
    let output_lines := effective_output_lines output_lines in
    try_except
      (result <- run_subprocess (py_str command) timeout ;;
       let out := truncate_output output_lines (stdout result) 50 in
       let err := truncate_output output_lines (stderr result) 20 in
       ret [("success", JBool (Z.eqb (returncode result) 0));
            ("exit_code", JInt (returncode result));
            ("stdout", JStr out); ("stderr", JStr err)])
      (fun e =>
         match kind e with
         | TimeoutExpired =>
             Some (ret (failure ("Command timed out (" +:+ pretty timeout
                                 +:+ "s limit)")))
         | _ => except_Exception e
         end).

(** ** The permission gate *)

(** [input(...)]: the next reply of the user; an exhausted input is at its
    end. *)
Definition input : M string :=
  fun w =>
    match stdin w with
    | [] => (Raise (Exn EOFError ""), w)
    | Line s :: rest => (Ret s, with_stdin rest w)
    | CtrlC :: rest => (Raise (Exn KeyboardInterrupt ""), with_stdin rest w)
    | EndOfInput :: rest => (Raise (Exn EOFError ""), with_stdin rest w)
    end.

(** [response in ('y', 'yes')]. *)
Definition is_yes (response : string) : bool :=
  String.eqb response "y" || String.eqb response "yes".

Definition prompt_user (action details : string) : M bool :=
  emit (EvPrompt action details) ;;;
  try_except
    (line <- input ;;
     let response := PyStr.lower (PyStr.strip line) in
     ret (is_yes response))
    (fun e =>
       match kind e with
       | KeyboardInterrupt | EOFError => Some (ret false)
       | _ => None
       end).

(** [args.get(key, default)]. *)
Definition get_arg (args : gmap string pyval) (key : string)
    (default : pyval) : pyval :=
  match args !! key with
  | Some v => v
  | None => default
  end.

(** [content.count('\n') + 1 if content else 0]: only a [str] has the
    method among the values that are true. *)
Definition line_count (content : pyval) : M nat :=
  if truthy content then
    match content with
    | VStr s => ret (PyStr.count s PyStr.nl_str + 1)%nat
    | _ => raise AttributeError "object has no attribute 'count'"
    end
  else ret O.

(** [t[:50] + "..." if len(t) > 50 else t]. *)
Definition preview (t : pyval) : M string :=
  match t with
  | VStr s =>
      if (50 <? String.length s)%nat
      then ret (PyStr.take_str 50 s +:+ "...")
      else ret s
  | _ => raise TypeError "object has no len()"
  end.

Definition read_only_tools : list string :=
  ["read_file"; "list_files"; "web_search"; "web_fetch"].

Definition allowed : bool * option string := (true, None).

Definition declined (why : string) : bool * option string :=
  (false, Some why).

(** [check_permission], with its last statement, the [return True, None]
    that no earlier branch reaches, as the parameter [otherwise]. *)
Definition check_permission_with (otherwise : M (bool * option string))
    (tool_name : string) (args : gmap string pyval)
    : M (bool * option string) :=
  if existsb (String.eqb tool_name) read_only_tools then ret allowed
  else
    w <- get ;;
    match PERMISSION_MODE w with
    | YOLO => ret allowed
    | mode =>
        if String.eqb tool_name "write_file" then
          match mode with
          | ACCEPT_EDITS => ret allowed
          | _ =>
              path <- to_relative_path (get_arg args "path" (VStr "?")) ;;
              let content := get_arg args "content" (VStr "") in
              lines <- line_count content ;;
              ok <- prompt_user "Write file"
                      (path +:+ " (" +:+ pretty lines +:+ " lines)") ;;
              if negb ok then ret (declined "User declined to write file")
              else ret allowed
          end
        else if String.eqb tool_name "edit_file" then
          match mode with
          | ACCEPT_EDITS => ret allowed
          | _ =>
              path <- to_relative_path (get_arg args "path" (VStr "?")) ;;
              let old_text := get_arg args "old_text" (VStr "") in
              let new_text := get_arg args "new_text" (VStr "") in
              old_preview <- preview old_text ;;
              new_preview <- preview new_text ;;
              let details :=
                path +:+ PyStr.nl_str +:+ "  - " +:+ repr old_preview
                  +:+ PyStr.nl_str +:+ "  + " +:+ repr new_preview in
              ok <- prompt_user "Edit file" details ;;
              if negb ok then ret (declined "User declined to edit file")
              else ret allowed
          end
        else if String.eqb tool_name "run_bash" then
          let command := get_arg args "command" (VStr "?") in
          ok <- prompt_user "Run command" (py_str command) ;;
          if negb ok then ret (declined "User declined to run command")
          else ret allowed
        else otherwise
    end.

Definition check_permission : string -> gmap string pyval
    -> M (bool * option string) :=
  check_permission_with (ret allowed).

(** ** The dispatcher *)

(** A call of [f] with the dictionary unpacked as keyword arguments: a
    keyword [f] does not have, or a missing one without a default, is a
    [TypeError]. *)
Definition bind_kwargs (fname : string) (required optional : list string)
    (arguments : gmap string pyval) : M unit :=
  let known k := existsb (String.eqb k) (required ++ optional) in
  if negb (forallb known (map fst (map_to_list arguments))) then
    raise TypeError (fname +:+ "() got an unexpected keyword argument")
  else if negb (forallb (fun k => bool_decide (is_Some (arguments !! k)))
                        required) then
    raise TypeError (fname +:+ "() missing a required positional argument")
  else ret tt.

(** The registry: each name with its function applied to keyword
    arguments.  The two web tools are the [ollama] functions, which the
    dispatcher calls itself. *)
Definition TOOLS : list (string * (gmap string pyval -> M jdict)) :=
  [ ("read_file",
     fun a => bind_kwargs "read_file" ["filename"] [] a ;;;
              read_file (get_arg a "filename" VNone));
    ("list_files",
     fun a => bind_kwargs "list_files" [] ["path"] a ;;;
              list_files (get_arg a "path" (VStr ".")));
    ("write_file",
     fun a => bind_kwargs "write_file" ["path"; "content"] [] a ;;;
              write_file (get_arg a "path" VNone) (get_arg a "content" VNone));
    ("edit_file",
     fun a => bind_kwargs "edit_file" ["path"; "old_text"; "new_text"] [] a ;;;
              edit_file (get_arg a "path" VNone) (get_arg a "old_text" VNone)
                        (get_arg a "new_text" VNone));
    ("run_bash",
     fun a => bind_kwargs "run_bash" ["command"] ["timeout"; "output_lines"] a ;;;
              run_bash (get_arg a "command" VNone) (get_arg a "timeout" (VInt 30))
                       (get_arg a "output_lines" (VStr "both")));
    ("web_search",
     fun a => emit (EvWebSearch a) ;;; _ <- lift (web_search a) ;; ret []);
    ("web_fetch",
     fun a => emit (EvWebFetch a) ;;; _ <- lift (web_fetch a) ;; ret []) ].

(** [TOOLS.get(name)]. *)
Fixpoint lookup_tool (name : string)
    (tools : list (string * (gmap string pyval -> M jdict)))
    : option (gmap string pyval -> M jdict) :=
  match tools with
  | [] => None
  | (n, f) :: rest => if String.eqb n name then Some f else lookup_tool name rest
  end.

Definition hit_to_json (r : SearchHit) : jval :=
  JDict [("title", JStr (hit_title r)); ("url", JStr (hit_url r));
         ("content", JStr (hit_content r))].

(** [execute_tool] over a gate whose last statement is [otherwise].  The
    dictionary [arguments] is taken by value: the branch of [web_search]
    goes on with the dictionary in which ["max_results"] is clamped, and the
    same assignment made in the dictionary of the caller, which the history
    holds, is not shown in [messages]. *)
Definition execute_tool_with (otherwise : M (bool * option string))
    (name : string) (arguments : gmap string pyval) : M json_text :=
  match lookup_tool name TOOLS with
  | None => ret (json_dumps (failure ("Unknown tool: " +:+ name)))
  | Some tool =>
      verdict <- check_permission_with otherwise name arguments ;;
      if negb (fst verdict) then
        ret (json_dumps
               [("success", JBool false);
                ("error", match snd verdict with
                          | Some error => JStr error
                          | None => JNull
                          end)])
      else
        try_except
          (if String.eqb name "web_search" then
             arguments <-
               match arguments !! "max_results" with
               | Some v =>
                   n <- as_number v ;;
                   ret (<["max_results" := VInt (Z.max 1 (Z.min 10 n))]>
                          arguments)
               | None => ret arguments
               end ;;
             emit (EvWebSearch arguments) ;;;
             result <- lift (web_search arguments) ;;
             ret (json_dumps_indent
                    [("success", JBool true);
                     ("results", JList (map hit_to_json result))] 2)
           else if String.eqb name "web_fetch" then
             emit (EvWebFetch arguments) ;;;
             result <- lift (web_fetch arguments) ;;
             ret (json_dumps_indent
                    [("success", JBool true);
                     ("title", JStr (page_title result));
                     ("content", JStr (PyStr.take_str (Z.to_nat 8000) (page_content result)));
                     ("links", JList (map JStr (firstn 20 (page_links result))))]
                    2)
           else
             result <- tool arguments ;;
             ret (json_dumps_indent result 2))
          (fun e =>
             if is_Exception e
             then Some (ret (json_dumps_indent (failure (text e)) 2))
             else None)
  end.

Definition execute_tool : string -> gmap string pyval -> M json_text :=
  execute_tool_with (ret allowed).

(** ** The conversation loop *)

Definition quote : string := String (ascii_of_nat 34) EmptyString.

(** [format_tool_call]: the line shown before a call is dispatched. *)
Definition format_tool_call (name : string) (args : gmap string pyval)
    : M string :=
  if String.eqb name "write_file" then
    path <- to_relative_path (get_arg args "path" (VStr "?")) ;;
    lines <- line_count (get_arg args "content" (VStr "")) ;;
    ret ("[Write] " +:+ path +:+ " (" +:+ pretty lines +:+ " lines)")
  else if String.eqb name "edit_file" then
    path <- to_relative_path (get_arg args "path" (VStr "?")) ;;
    ret ("[Edit] " +:+ path)
  else if String.eqb name "read_file" then
    filename <- to_relative_path (get_arg args "filename" (VStr "?")) ;;
    ret ("[Read] " +:+ filename)
  else if String.eqb name "list_files" then
    path <- to_relative_path (get_arg args "path" (VStr ".")) ;;
    ret ("[List] " +:+ path)
  else if String.eqb name "run_bash" then
    ret ("Bash(" +:+ py_str (get_arg args "command" (VStr "?")) +:+ ")")
  else if String.eqb name "web_search" then
    ret ("[Search] " +:+ quote +:+ py_str (get_arg args "query" (VStr "?"))
         +:+ quote +:+ " (max "
         +:+ py_str (get_arg args "max_results" (VInt 5)) +:+ ")")
  else if String.eqb name "web_fetch" then
    match get_arg args "url" (VStr "?") with
    | VStr url =>
        ret ("[Fetch] " +:+
             (if (60 <? String.length url)%nat
              then PyStr.take_str 57 url +:+ "..." else url))
    | _ => raise TypeError "object has no len()"
    end
  else ret ("[" +:+ name +:+ "] " +:+ str_of_dict args).

Definition append_message (m : message) : M unit :=
  modify (fun w => with_messages (messages w ++ [m]) w).

(** [messages.pop()]. *)
Definition pop_message : M unit :=
  w <- get ;;
  match messages w with
  | [] => raise IndexError "pop from empty list"
  | _ => modify (fun w => with_messages (removelast (messages w)) w)
  end.

(** [tokens.add(response)]. *)
Definition tokens_add (response : ChatResponse) : M unit :=
  modify (fun w =>
            with_tokens
              (fst (tokens w) + default 0 (prompt_eval_count response),
               snd (tokens w) + default 0 (eval_count response)) w).

(** The [for call in response.message.tool_calls] loop; the line that shows
    the formatted result is display only and is left out. *)
Fixpoint run_tool_calls (calls : list tool_call) : M unit :=
  match calls with
  | [] => ret tt
  | call :: rest =>
      let tool_name := call_name call in
      let tool_args := call_arguments call in
      line <- format_tool_call tool_name tool_args ;;
      emit (EvToolCall line) ;;;
      result <- execute_tool tool_name tool_args ;;
      append_message (ToolMessage tool_name result) ;;;
      run_tool_calls rest
  end.

(** The inner [while True] of [run_agent], for at most [fuel] calls of the
    model: [true] when the loop was left by one of its [break]s, [false]
    when the fuel ran out first.  The system message is the same in every
    call and is part of [chat]. *)
Fixpoint agent_loop (fuel : nat) : M bool :=
  match fuel with
  | O => ret false
  | S fuel' =>
      w <- get ;;
      emit (EvChat (messages w)) ;;;
      answer <-
        try_except
          (response <- lift (chat (messages w)) ;; ret (Some response))
          (fun e =>
             if is_Exception e then
               Some (emit (EvModelError e) ;;;
                     pop_message ;;;       (* Remove failed user message *)
                     ret None)
             else None) ;;
      match answer with
      | None => ret true
      | Some response =>
          tokens_add response ;;;
          append_message
            (AssistantMessage (response_content response)
               (response_thinking response) (response_tool_calls response)) ;;;
          match response_tool_calls response with
          | [] => ret true
          | calls => run_tool_calls calls ;;; agent_loop fuel'
          end
      end
  end.

(** One turn of the outer loop for a text that is no command: the user
    message is appended and the inner loop runs. *)
Definition user_turn (fuel : nat) (user_input : string) : M bool :=
  append_message (UserMessage user_input) ;;;
  agent_loop fuel.

End Agent.

(** ** The session loop *)

Definition with_mode (m : PermissionMode) (w : World) : World :=
  {| PERMISSION_MODE := m; fs := fs w; stdin := stdin w;
     messages := messages w; tokens := tokens w; log := log w |}.

(** The characters of [s] before its first blank. *)
Fixpoint until_space (s : string) : string :=
  match s with
  | EmptyString => EmptyString
  | String c s' =>
      if PyStr.is_space c then EmptyString else String c (until_space s')
  end.

(** What follows the first blanks of [s], without them. *)
Fixpoint after_space (s : string) : string :=
  match s with
  | EmptyString => EmptyString
  | String c s' => if PyStr.is_space c then PyStr.lstrip s' else after_space s'
  end.

(** [s.split()[0]] for a text [s] that is not blank. *)
Definition first_word (s : string) : string := until_space (PyStr.lstrip s).

(** [s.split(maxsplit=1)[1]], or the empty text when the split has one
    part only. *)
Definition second_part (s : string) : string := after_space (PyStr.lstrip s).

(** How one round of the outer loop of [run_agent] ends. *)
Inductive signal : Type := Continue | Break.

(** One round of the outer [while True] of [run_agent]: a line is read and
    acted on.  The global [MODEL] is passed in and out; what is printed is
    left out. *)
Definition repl_step `{R : Runtime} (fuel : nat) (MODEL : string)
    : M (signal * string) :=
  line <-
    try_except
      (l <- input ;; ret (Some (PyStr.strip l)))
      (fun e =>
         match kind e with
         | KeyboardInterrupt | EOFError => Some (ret None)
         | _ => None
         end) ;;
  match line with
  | None => ret (Break, MODEL)
  | Some user_input =>
      if String.eqb user_input "" then ret (Continue, MODEL)
      else if String.prefix "/" user_input then
        let cmd := first_word (PyStr.lower user_input) in
        if String.eqb cmd "/help" then ret (Continue, MODEL)
        else if String.eqb cmd "/mode" then
          w <- get ;;
          match PERMISSION_MODE w with
          | DEFAULT => modify (with_mode ACCEPT_EDITS)
          | ACCEPT_EDITS => modify (with_mode YOLO)
          | YOLO => modify (with_mode DEFAULT)
          end ;;;
          ret (Continue, MODEL)
        else if String.eqb cmd "/model" then
          let name := second_part user_input in
          if String.eqb name "" then ret (Continue, MODEL)
          else ret (Continue, PyStr.strip name)
        else if String.eqb cmd "/clear" then
          modify (fun w => with_tokens (0, 0) (with_messages [] w)) ;;;
          ret (Continue, MODEL)
        else if String.eqb cmd "/tokens" then ret (Continue, MODEL)
        else if existsb (String.eqb cmd) ["/quit"; "/exit"] then
          ret (Break, MODEL)
        else ret (Continue, MODEL)
      else if existsb (String.eqb (PyStr.lower user_input)) ["quit"; "exit"]
      then ret (Break, MODEL)
      else user_turn fuel user_input ;;; ret (Continue, MODEL)
  end.

(** ** A small concrete runtime, to run the embedding on examples *)

Module Demo.

(** The working directory is [/work]. *)
Definition demo_resolve (p : string) : string :=
  if String.prefix "/" p then p else "/work/" +:+ p.

Definition demo_relative (p : string) : option string :=
  if String.prefix "/work/" p then Some (PyStr.drop_str 6 p) else None.

(** The numbers from [1] to [n], one per line, as [seq n] prints them. *)
Definition numbered_lines (n : nat) : list string :=
  map (fun i : nat => pretty i) (seq 1 n).

Definition seq_output (n : nat) : string :=
  String.concat "" (map (fun l => l +:+ PyStr.nl_str) (numbered_lines n)).

(** A shell that knows four commands and changes no file; [head -n 1]
    reads a line of the terminal input and prints it. *)
Definition demo_shell (command : string) (timeout : Z)
    (files : gmap string node) (answers : list reply)
    : (exn + CompletedProcess) * gmap string node * list reply :=
  let done out := inr {| returncode := 0; stdout := out; stderr := "" |} in
  if String.eqb command "seq 1000" then
    (done (seq_output 1000), files, answers)
  else if String.eqb command "seq 1000 | head -c -1" then
    (done (PyStr.join_nl (numbered_lines 1000)), files, answers)
  else if String.eqb command "echo hi" then
    (done ("hi" +:+ PyStr.nl_str), files, answers)
  else if String.eqb command "head -n 1" then
    match answers with
    | Line s :: rest => (done (s +:+ PyStr.nl_str), files, rest)
    | _ => (done "", files, tl answers)
    end
  else (done "", files, answers).

(** The error of a name that is no entry: below a regular file there is no
    directory to look in. *)
Definition demo_open_error (full_path : string) (files : gmap string node)
    : exn :=
  if existsb
       (fun entry : string * node =>
          match snd entry with
          | File _ => String.prefix (fst entry +:+ "/") full_path
          | Directory => false
          end)
       (map_to_list files)
  then Exn NotADirectoryError "Not a directory"
  else Exn FileNotFoundError "No such file or directory".

(** The three bytes that stand here for a lone surrogate, the text the
    codec refuses. *)
Definition lone_surrogate : string :=
  String (ascii_of_nat 237)
    (String (ascii_of_nat 160) (String (ascii_of_nat 128) EmptyString)).

Definition demo_encodable (text : string) : bool :=
  (PyStr.count text lone_surrogate =? 0)%nat.

Definition read_notes : tool_call :=
  ToolCall "read_file" {[ "filename" := VStr "notes.txt" ]}.

(** A model service that answers the first user message with one tool call
    and is unreachable afterwards. *)
Definition demo_chat (history : list message) : exn + ChatResponse :=
  match history with
  | [UserMessage _] =>
      inr {| response_content := None; response_thinking := None;
             response_tool_calls := [read_notes];
             prompt_eval_count := Some 12; eval_count := Some 7 |}
  | _ => inl (Exn ConnectionError "connection refused")
  end.

#[export] Instance demo_runtime : Runtime := {
  resolve := demo_resolve;
  relative_to_cwd := demo_relative;
  repr := fun s => "'" +:+ s +:+ "'";
  str_of_dict := fun _ => "{...}";
  mkdir_parents := fun _ files => inr files;
  open_error := demo_open_error;
  encodable := demo_encodable;
  iterdir := fun _ _ => inr [];
  subprocess_run := demo_shell;
  web_search := fun _ => inl (Exn ConnectionError "connection refused");
  web_fetch := fun _ => inl (Exn ConnectionError "connection refused");
  chat := demo_chat
}.

(** A session in [mode] with the files [files] and a user who will give the
    answers [answers]. *)
Definition world (mode : PermissionMode) (files : gmap string node)
    (answers : list reply) : World :=
  {| PERMISSION_MODE := mode; fs := files; stdin := answers;
     messages := []; tokens := (0, 0); log := [] |}.

Definition notes : gmap string node :=
  {[ "/work/notes.txt" := File "remember the milk" ]}.

(** The arguments of a call of [run_bash] that would wipe the root, and the
    explanation the table gives for it. *)
Definition root_wipe : gmap string pyval := {[ "command" := VStr "rm -rf /" ]}.

Definition root_wipe_reason : string :=
  "Recursively deletes the entire filesystem starting from root - would destroy the operating system and all data".

(** The arguments of a call of [edit_file] with a number where a text is
    expected. *)
Definition bad_edit : gmap string pyval :=
  <["path" := VStr "a.txt"]>
    (<["old_text" := VInt 5]> {[ "new_text" := VStr "x" ]}).

(** The arguments of a well-formed call of [write_file]. *)
Definition small_write : gmap string pyval :=
  <["path" := VStr "a.txt"]> {[ "content" := VStr "x" ]}.



End Demo.

(** ** A second runtime: the services answer and the shell is slow *)

Module Online.

Definition page : FetchedPage :=
  {| page_title := "Example Domain";
     page_content := "This domain is for use in examples.";
     page_links := ["https://www.iana.org/domains/example"] |}.

Definition answer : ChatResponse :=
  {| response_content := Some "Done."; response_thinking := None;
     response_tool_calls := [];
     prompt_eval_count := Some 20; eval_count := None |}.

(** Every command runs past its time limit; the model always answers
    without tool calls; every page is the same. *)
Definition online_runtime : Runtime := {|
  resolve := Demo.demo_resolve;
  relative_to_cwd := Demo.demo_relative;
  repr := fun s => "'" +:+ s +:+ "'";
  str_of_dict := fun _ => "{...}";
  mkdir_parents := fun _ files => inr files;
  open_error := Demo.demo_open_error;
  encodable := Demo.demo_encodable;
  iterdir := fun _ _ => inr [];
  subprocess_run :=
    fun _ _ files answers =>
      (inl (Exn TimeoutExpired "timed out"), files, answers);
  web_search := fun _ => inr [];
  web_fetch := fun _ => inr page;
  chat := fun _ => inr answer
|}.

End Online.

(** ** The vocabulary of the properties *)

(** The number of positions of [s] at which [sub] occurs, the positions
    where occurrences overlap included. *)
Fixpoint occurrences (sub s : string) : nat :=
  ((if String.prefix sub s then 1 else 0) +
   match s with
   | EmptyString => 0
   | String _ s' => occurrences sub s'
   end)%nat.

(** A text without a newline character. *)
Fixpoint one_line (s : string) : bool :=
  match s with
  | EmptyString => true
  | String c s' => negb (Ascii.eqb c PyStr.nl) && one_line s'
  end.

(** The field [key] of the dictionary an executor returned. *)
Definition field_of (key : string) (r : outcome jdict * World) : option jval :=
  match fst r with
  | Ret d => field key d
  | Raise _ => None
  end.



(** The world once the user has been asked and has answered. *)
Definition after_prompt (action details : string) (w : World) : World :=
  with_stdin (tl (stdin w))
    (with_log (log w ++ [EvPrompt action details]) w).

(** The world once the shell has been called with [timeout] and has left
    [files] and [answers]. *)
Definition after_shell (command : string) (timeout : Z)
    (files : gmap string node) (answers : list reply) (w : World) : World :=
  with_stdin answers
    (with_fs files (with_log (log w ++ [EvShell command timeout])%list w)).

(** ** What a computation leaves alone *)

(** [m] never changes the part [proj] of the world, whether it returns or
    raises. *)
Definition preserves {A B} (proj : World -> B) (m : M A) : Prop :=
  forall w, proj (snd (m w)) = proj w.

(** ** What a computation shows to the outside *)

(** Whatever [m] does, the events it adds to the log all satisfy [P]. *)
Definition emits_only {A} (P : event -> Prop) (m : M A) : Prop :=
  forall w, exists evs,
    log (snd (m w)) = (log w ++ evs)%list /\ List.Forall P evs.

Definition not_prompt (e : event) : Prop :=
  match e with EvPrompt _ _ => False | _ => True end.

Definition not_shell (e : event) : Prop :=
  match e with EvShell _ _ => False | _ => True end.

(** The user's next answer is a yes. *)
Definition approves (answers : list reply) : bool :=
  match answers with
  | Line s :: _ => is_yes (PyStr.lower (PyStr.strip s))
  | _ => false
  end.

(** The [try] block of [execute_tool], reached when the gate allows the
    call. *)
Definition dispatched `{R : Runtime} (name : string)
    (tool : gmap string pyval -> M jdict) (arguments : gmap string pyval)
    : M json_text :=
  try_except
    (if String.eqb name "web_search" then
       arguments <-
         match arguments !! "max_results" with
         | Some v =>
             n <- as_number v ;;
             ret (<["max_results" := VInt (Z.max 1 (Z.min 10 n))]>
                    arguments)
         | None => ret arguments
         end ;;
       emit (EvWebSearch arguments) ;;;
       result <- lift (web_search arguments) ;;
       ret (json_dumps_indent
              [("success", JBool true);
               ("results", JList (map hit_to_json result))] 2)
     else if String.eqb name "web_fetch" then
       emit (EvWebFetch arguments) ;;;
       result <- lift (web_fetch arguments) ;;
       ret (json_dumps_indent
              [("success", JBool true);
               ("title", JStr (page_title result));
               ("content", JStr (PyStr.take_str (Z.to_nat 8000) (page_content result)));
               ("links", JList (map JStr (firstn 20 (page_links result))))]
              2)
     else
       result <- tool arguments ;;
       ret (json_dumps_indent result 2))
    (fun e =>
       if is_Exception e
       then Some (ret (json_dumps_indent (failure (text e)) 2))
       else None).

(** The dictionary [run_bash] returns for a blocked command. *)
Definition blocked_result (command explanation : string) : jdict :=
  [("success", JBool false); ("blocked", JBool true);
   ("error", JStr "BLOCKED: This command is dangerous and cannot be executed.");
   ("command", JStr command); ("reason", JStr explanation)].

(** The parameters of [run_bash]. *)
Definition run_bash_parameters : list string :=
  ["command"; "timeout"; "output_lines"].

(** The entry of [run_bash] in the registry. *)
Definition run_bash_entry `{R : Runtime} (a : gmap string pyval) : M jdict :=
  bind_kwargs "run_bash" ["command"] ["timeout"; "output_lines"] a ;;;
  run_bash (get_arg a "command" VNone) (get_arg a "timeout" (VInt 30))
           (get_arg a "output_lines" (VStr "both")).




Definition read_result (full_path content : string) : jdict :=
  [("success", JBool true); ("file_path", JStr full_path);
   ("content", JStr content)].

(** Texts that make a command dangerous wherever they stand in it. *)
Definition dangerous_fragments : list string :=
  ["rm -rf /"; "rm -rf ~"; "mkfs."; "kill -9 -1"; "> /etc/passwd";
   "> /etc/shadow"; "iptables -F"; "ufw disable"].

(** A position of the matcher with every character lowered. *)
Definition lowered (p : Re.cursor) : Re.cursor :=
  (option_map PyStr.lower_char (fst p), map PyStr.lower_char (snd p)).

(** The slash command a line stands for, if it is one: the first word of
    the stripped line, lowered. *)
Definition slash_command (line : string) : option string :=
  let user_input := PyStr.strip line in
  if String.eqb user_input "" then None
  else if String.prefix "/" user_input
       then Some (first_word (PyStr.lower user_input))
       else None.

(** The mode after [mode] in the cycle of the [/mode] command. *)
Definition next_mode (mode : PermissionMode) : PermissionMode :=
  match mode with
  | DEFAULT => ACCEPT_EDITS
  | ACCEPT_EDITS => YOLO
  | YOLO => DEFAULT
  end.

(** The slash commands that change the session or leave it. *)
Definition acting_commands : list string :=
  ["/mode"; "/model"; "/clear"; "/quit"; "/exit"].

(** * Properties *)

(** ** Occurrences of a text in a text *)

Section TextFacts.

Lemma app_String (c : ascii) (s t : string) :
  String c s +:+ t = String c (s +:+ t).
Proof. reflexivity. Qed.


Lemma app_assoc_str (s t u : string) : (s +:+ t) +:+ u = s +:+ (t +:+ u).
Proof.
  induction s as [|c s IH]; [reflexivity | exact (f_equal (String c) IH)].
Qed.


















(** Lines and newlines. *)
Lemma split_one_line (l : string) :
  one_line l = true -> PyStr.split_nl l = [l].
Proof.
  induction l as [|c l IH]; simpl; [reflexivity |].
  intros H. apply andb_prop in H as [Hc Hl].
  apply negb_true_iff in Hc. rewrite Hc, (IH Hl). reflexivity.
Qed.

Lemma split_line_then (l rest : string) :
  one_line l = true ->
  PyStr.split_nl (l +:+ PyStr.nl_str +:+ rest) = l :: PyStr.split_nl rest.
Proof.
  induction l as [|c l IH]; simpl; intros H; [reflexivity |].
  apply andb_prop in H as [Hc Hl].
  apply negb_true_iff in Hc. rewrite Hc, (IH Hl). reflexivity.
Qed.

Lemma split_join (l : string) (ls : list string) :
  forallb one_line (l :: ls) = true ->
  PyStr.split_nl (PyStr.join_nl (l :: ls)) = l :: ls.
Proof.
  revert l. induction ls as [|l' ls IH]; intros l H.
  - simpl in *. apply split_one_line. now rewrite andb_true_r in H.
  - change (forallb one_line (l :: l' :: ls))
      with (one_line l && forallb one_line (l' :: ls)) in H.
    apply andb_prop in H as [Hl Hls].
    change (PyStr.join_nl (l :: l' :: ls))
      with (l +:+ PyStr.nl_str +:+ PyStr.join_nl (l' :: ls)).
    rewrite (split_line_then _ _ Hl). f_equal. now apply IH.
Qed.

End TextFacts.

(** ** Running the executors *)

Section Runs.
Context `{R : Runtime}.

Ltac run :=
  cbv beta iota zeta delta
    [try_except bind ret get modify raise reraise lift emit
     resolve_path as_path to_relative_path read_text write_text
     str_count str_replace_first as_number fst snd].



(** [run_bash] on a command the blocklist lets through, with an integer
    timeout: the shell is called once, with the clamped timeout, and what it
    printed is shaped against 50 and 20 lines. *)
Lemma run_bash_completed (command : string) (timeout : Z)
    (output_lines : pyval) (w : World) (done : CompletedProcess)
    (files : gmap string node) (answers : list reply) :
  first_match DANGEROUS_PATTERNS command = None ->
  subprocess_run command (clamp_timeout timeout) (fs w) (stdin w) =
    (inr done, files, answers) ->
  run_bash (VStr command) (VInt timeout) output_lines w =
  (Ret [("success", JBool (Z.eqb (returncode done) 0));
        ("exit_code", JInt (returncode done));
        ("stdout",
         JStr (truncate_output (effective_output_lines output_lines)
                 (stdout done) 50));
        ("stderr",
         JStr (truncate_output (effective_output_lines output_lines)
                 (stderr done) 20))],
   after_shell command (clamp_timeout timeout) files answers w).
Proof.
  intros Hsafe Hrun. unfold run_bash, check_dangerous_command.
  rewrite Hsafe. unfold run_subprocess. run.
  cbn [py_str log fs stdin with_log]. rewrite Hrun. reflexivity.
Qed.

(** The same when the call of the shell raises: a timeout is reported with
    the clamped limit, another [Exception] with its text, and what is no
    [Exception] goes on. *)
Lemma run_bash_raised (command : string) (timeout : Z)
    (output_lines : pyval) (w : World) (e : exn)
    (files : gmap string node) (answers : list reply) :
  first_match DANGEROUS_PATTERNS command = None ->
  subprocess_run command (clamp_timeout timeout) (fs w) (stdin w) =
    (inl e, files, answers) ->
  run_bash (VStr command) (VInt timeout) output_lines w =
  (match kind e with
   | TimeoutExpired =>
       Ret (failure ("Command timed out (" +:+ pretty (clamp_timeout timeout)
                     +:+ "s limit)"))
   | _ => if is_Exception e then Ret (failure (text e)) else Raise e
   end,
   after_shell command (clamp_timeout timeout) files answers w).
Proof.
  intros Hsafe Hrun. unfold run_bash, check_dangerous_command.
  rewrite Hsafe. unfold run_subprocess. run.
  cbn [py_str log fs stdin with_log]. rewrite Hrun. cbn.
  destruct (kind e) eqn:K; unfold except_Exception, is_Exception;
    rewrite ?K; reflexivity.
Qed.

(** Whatever the shell does, [run_bash] calls it with the clamped timeout
    and with nothing else. *)
Lemma run_bash_log (command : string) (timeout : Z) (output_lines : pyval)
    (w : World) :
  first_match DANGEROUS_PATTERNS command = None ->
  log (snd (run_bash (VStr command) (VInt timeout) output_lines w)) =
  (log w ++ [EvShell command (clamp_timeout timeout)])%list.
Proof.
  intros Hsafe.
  destruct (subprocess_run command (clamp_timeout timeout) (fs w) (stdin w))
    as [[[e|done] files] answers] eqn:Hrun.
  - now rewrite (run_bash_raised _ _ output_lines _ _ _ _ Hsafe Hrun).
  - now rewrite (run_bash_completed _ _ output_lines _ _ _ _ Hsafe Hrun).
Qed.

(** A dangerous command never reaches the shell: [run_bash] returns the
    blocked result and leaves the world as it was. *)
Lemma run_bash_blocked (command explanation : string)
    (timeout output_lines : pyval) (w : World) :
  first_match DANGEROUS_PATTERNS command = Some explanation ->
  run_bash (VStr command) timeout output_lines w =
  (Ret [("success", JBool false); ("blocked", JBool true);
        ("error",
         JStr "BLOCKED: This command is dangerous and cannot be executed.");
        ("command", JStr command); ("reason", JStr explanation)], w).
Proof.
  intros Hmatch. unfold run_bash, check_dangerous_command.
  rewrite Hmatch. reflexivity.
Qed.

End Runs.

(** ** The executors *)


Lemma differ (a b : string) :
  String.eqb a b = false -> Some (JStr a) <> Some (JStr b).
Proof.
  intros H E. apply String.eqb_neq in H. apply H. congruence.
Qed.

Section ExecutorClaims.
Context `{R : Runtime}.

(** C8. For every integer timeout the limit [run_bash] works with is the
    timeout clamped into the interval from 1 to 600 seconds: a timeout in
    the interval is kept, a smaller one becomes 1 and a larger one 600, so
    5000 becomes 600 and -1 becomes 1.  The shell is called once, with that
    limit, and what the call returns or raises is what [run_bash] reports,
    the limit being the one named when the call timed out. *)
Theorem C8_timeout_clamped (command : string) (timeout : Z)
    (output_lines : pyval) (w : World) :
  first_match DANGEROUS_PATTERNS command = None ->
  let limit := clamp_timeout timeout in
  1 <= limit <= 600
  /\ (1 <= timeout <= 600 -> limit = timeout)
  /\ (timeout < 1 -> limit = 1)
  /\ (600 < timeout -> limit = 600)
  /\ clamp_timeout 5000 = 600
  /\ clamp_timeout (-1) = 1
  /\ log (snd (run_bash (VStr command) (VInt timeout) output_lines w)) =
     (log w ++ [EvShell command limit])%list
  /\ (let '(result, files, answers) :=
         subprocess_run command limit (fs w) (stdin w) in
       run_bash (VStr command) (VInt timeout) output_lines w =
       (match result with
        | inr done =>
            Ret [("success", JBool (Z.eqb (returncode done) 0));
                 ("exit_code", JInt (returncode done));
                 ("stdout",
                  JStr (truncate_output (effective_output_lines output_lines)
                          (stdout done) 50));
                 ("stderr",
                  JStr (truncate_output (effective_output_lines output_lines)
                          (stderr done) 20))]
        | inl e =>
            match kind e with
            | TimeoutExpired =>
                Ret (failure ("Command timed out (" +:+ pretty limit
                              +:+ "s limit)"))
            | _ => if is_Exception e then Ret (failure (text e)) else Raise e
            end
        end,
        after_shell command limit files answers w)).
Proof.
  intros Hsafe limit. unfold limit, clamp_timeout.
  repeat (split; [lia |]).
  fold (clamp_timeout timeout).
  split; [now apply run_bash_log |].
  destruct (subprocess_run command (clamp_timeout timeout) (fs w) (stdin w))
    as [[[e|done] files] answers] eqn:Hrun.
  - exact (run_bash_raised _ _ output_lines _ _ _ _ Hsafe Hrun).
  - exact (run_bash_completed _ _ output_lines _ _ _ _ Hsafe Hrun).
Qed.

(** [run_bash] looks at [output_lines] only through the mode it stands
    for. *)
Lemma run_bash_mode (command timeout v v' : pyval) (w : World) :
  effective_output_lines v = effective_output_lines v' ->
  run_bash command timeout v w = run_bash command timeout v' w.
Proof. intros H. unfold run_bash. now rewrite H. Qed.

Lemma effective_unknown (v : pyval) :
  (forall s, In s known_output_lines -> v <> VStr s) ->
  effective_output_lines v = "both".
Proof.
  intros H. destruct v as [| | |s]; try reflexivity.
  unfold effective_output_lines.
  destruct (existsb (String.eqb s) known_output_lines) eqn:E; [|reflexivity].
  apply existsb_exists in E as (x & Hin & Hx).
  apply String.eqb_eq in Hx. subst x. now destruct (H s Hin).
Qed.

(** The middle cut of a text of 1000 pieces. *)
Lemma truncate_both_1000 (l : string) (ls : list string) :
  forallb one_line (l :: ls) = true ->
  length (l :: ls) = 1000%nat ->
  truncate_output "both" (PyStr.join_nl (l :: ls)) 50 =
  PyStr.join_nl (firstn 25 (l :: ls)) +:+ PyStr.nl_str
    +:+ "... (950 lines omitted) ..." +:+ PyStr.nl_str
    +:+ PyStr.join_nl (skipn 975 (l :: ls)).
Proof.
  intros Hlines Hlen. unfold truncate_output.
  rewrite (split_join _ _ Hlines).
  unfold PyStr.tail_slice, PyStr.head_slice. rewrite Hlen.
  replace (pretty (1000 - 50)%nat) with "950" by (vm_compute; reflexivity).
  reflexivity.
Qed.

Lemma truncate_all (text : string) (max_lines : nat) :
  truncate_output "all" text max_lines = text.
Proof.
  unfold truncate_output.
  destruct (length (PyStr.split_nl text) <=? max_lines)%nat; reflexivity.
Qed.

(** X28. When the shell prints a text that the newline characters split
    into exactly 1000 pieces (1000 lines with no newline after the last),
    [run_bash] returns under ["both"] its first 25 pieces, the marker
    "950 lines omitted" and its last 25 pieces, and under ["all"] the text
    as it is; a mode that is none of the four is read as ["both"]. *)
Theorem output_shaping_unterminated (command : string) (timeout : Z)
    (w : World) (done : CompletedProcess) (files : gmap string node)
    (answers : list reply) (l : string) (ls : list string) :
  first_match DANGEROUS_PATTERNS command = None ->
  subprocess_run command (clamp_timeout timeout) (fs w) (stdin w) =
    (inr done, files, answers) ->
  forallb one_line (l :: ls) = true ->
  length (l :: ls) = 1000%nat ->
  stdout done = PyStr.join_nl (l :: ls) ->
  let run mode := run_bash (VStr command) (VInt timeout) mode w in
  field_of "stdout" (run (VStr "both")) =
    Some (JStr (PyStr.join_nl (firstn 25 (l :: ls)) +:+ PyStr.nl_str
                +:+ "... (950 lines omitted) ..." +:+ PyStr.nl_str
                +:+ PyStr.join_nl (skipn 975 (l :: ls))))
  /\ field_of "stdout" (run (VStr "all")) = Some (JStr (stdout done))
  /\ (forall mode,
        (forall s, In s known_output_lines -> mode <> VStr s) ->
        run mode = run (VStr "both")).
Proof.
  intros Hsafe Hrun Hlines Hlen Hout run.
  assert (Hfield : forall mode,
             field_of "stdout" (run mode) =
               Some (JStr (truncate_output (effective_output_lines mode)
                             (stdout done) 50))).
  { intros mode. unfold run, field_of.
    now rewrite (run_bash_completed _ _ mode _ _ _ _ Hsafe Hrun). }
  split; [|split].
  - rewrite (Hfield (VStr "both")), Hout.
    change (effective_output_lines (VStr "both")) with "both".
    now rewrite truncate_both_1000.
  - rewrite (Hfield (VStr "all")).
    change (effective_output_lines (VStr "all")) with "all".
    now rewrite truncate_all.
  - intros mode Hmode. unfold run. apply run_bash_mode.
    now rewrite (effective_unknown _ Hmode).
Qed.




End ExecutorClaims.

(** ** The claims about the gate and the dispatcher *)

Section GateClaims.
Context `{R : Runtime}.

Ltac run :=
  cbv beta iota zeta delta
    [try_except bind ret get modify raise reraise lift emit
     resolve_path as_path to_relative_path fst snd].





Lemma execute_tool_denied (otherwise : M (bool * option string))
    (name why : string) (args : gmap string pyval) (w w' : World) :
  check_permission_with otherwise name args w = (Ret (declined why), w') ->
  lookup_tool name TOOLS <> None ->
  execute_tool_with otherwise name args w =
  (Ret (json_dumps [("success", JBool false); ("error", JStr why)]), w').
Proof.
  intros Hgate Hknown. unfold execute_tool_with.
  destruct (lookup_tool name TOOLS); [|congruence].
  unfold bind. now rewrite Hgate.
Qed.


(** C9. The registry has the seven tools.  A name that is not in it gets
    the unknown-tool failure at once, the world untouched, so the gate is
    not called and nobody is asked; a name that is in it is decided by one
    of the earlier branches of the gate: whatever stands in the place of the
    gate's last [return], the gate and the dispatcher behave the same. *)
Theorem C9_fail_open_unreachable (otherwise : M (bool * option string))
    (name : string) (args : gmap string pyval) (w : World) :
  map fst TOOLS =
    ["read_file"; "list_files"; "write_file"; "edit_file"; "run_bash";
     "web_search"; "web_fetch"]
  /\ (lookup_tool name TOOLS = None ->
      execute_tool_with otherwise name args w =
      (Ret (json_dumps (failure ("Unknown tool: " +:+ name))), w))
  /\ (lookup_tool name TOOLS <> None ->
      check_permission_with otherwise name args w =
      check_permission name args w)
  /\ execute_tool_with otherwise name args w = execute_tool name args w.
Proof.
  split; [reflexivity |]. split; [|split].
  - intros Hnone. unfold execute_tool_with. now rewrite Hnone.
  - unfold lookup_tool, TOOLS.
    repeat match goal with
           | |- context [String.eqb ?known name] =>
               destruct (String.eqb_spec known name) as [<-|_];
               [intros _; reflexivity |]
           end.
    congruence.
  - unfold execute_tool, execute_tool_with, lookup_tool, TOOLS.
    repeat match goal with
           | |- context [String.eqb ?known name] =>
               destruct (String.eqb_spec known name) as [<-|_];
               [reflexivity |]
           end.
    reflexivity.
Qed.

End GateClaims.

(** ** The embedding run on examples *)

Section Examples.
Import Demo.

(** C1. In the default mode, with a user who answers no, the dispatcher
    returns the gate's refusal for [rm -rf /], a command the first pattern
    of the table matches: the result has no [blocked] field and no
    [reason]. *)
Theorem C1_refused_not_blocked :
  let '(r, w') := execute_tool "run_bash" root_wipe (world DEFAULT ∅ [Line "n"]) in
  first_match DANGEROUS_PATTERNS "rm -rf /" = Some root_wipe_reason
  /\ r = Ret (json_dumps [("success", JBool false);
                          ("error", JStr "User declined to run command")])
  /\ (forall d, r = Ret d -> field "blocked" (payload d) = None
                             /\ field "reason" (payload d) = None)
  /\ log w' = [EvPrompt "Run command" "rm -rf /"].
Proof.
  vm_compute. split; [reflexivity |]. split; [reflexivity |].
  split; [|reflexivity].
  intros d H. injection H as <-. split; reflexivity.
Qed.

(** C2. In the default mode the dispatcher asks the user about [rm -rf /]
    and takes the answer before the blocklist is looked at: the blocked
    result comes after the question, and the answer is used up. *)
Theorem C2_gate_before_interceptor :
  let w := world DEFAULT ∅ [Line "y"; Line "later"] in
  let '(r, w') := execute_tool "run_bash" root_wipe w in
  (exists d, r = Ret d
             /\ field "blocked" (payload d) = Some (JBool true)
             /\ field "reason" (payload d) = Some (JStr root_wipe_reason))
  /\ log w' = [EvPrompt "Run command" "rm -rf /"]
  /\ stdin w' = [Line "later"].
Proof.
  vm_compute. repeat split. eexists. repeat split.
Qed.

(** C3. In the default mode an [edit_file] call whose [old_text] is the
    number 5 makes the gate raise a [TypeError], which the dispatcher does
    not catch; the line shown before the call is built without an error. *)
Theorem C3_exception_escapes :
  let w := world DEFAULT ∅ [Line "y"] in
  execute_tool "edit_file" bad_edit w =
    (Raise (Exn TypeError "object has no len()"), w)
  /\ format_tool_call "edit_file" bad_edit w = (Ret "[Edit] a.txt", w).
Proof. vm_compute. split; reflexivity. Qed.

(** C5. The model answers the user with a call of [read_file] and cannot be
    reached for the next call: the loop ends, the message taken off the
    history is the tool message, and the user message and the assistant
    message stay. *)
Theorem C5_follow_up_failure_keeps_user_message :
  let w := world DEFAULT notes [] in
  let '(r, w') := user_turn 5 "what is in my notes?" w in
  r = Ret true
  /\ messages w = []
  /\ messages w' =
     [UserMessage "what is in my notes?";
      AssistantMessage None None [read_notes]]
  /\ last (log w') =
     Some (EvModelError (Exn ConnectionError "connection refused")).
Proof. vm_compute. repeat split. Qed.

(** C4. [aa] occurs at two positions of [aaa], so the match is not unique;
    [content.count] counts the occurrences that do not overlap and finds
    one, the test that asks for a unique match lets the edit through, and
    the file is rewritten. *)
Theorem C4_overlapping_match_edited :
  let w := Demo.world DEFAULT {[ "/work/f" := File "aaa" ]} [] in
  let '(r, w') := edit_file (VStr "f") (VStr "aa") (VStr "b") w in
  occurrences "aa" "aaa" = 2%nat
  /\ PyStr.count "aaa" "aa" = 1%nat
  /\ fs w !! "/work/f" = Some (File "aaa")
  /\ r = Ret (edited_result "/work/f")
  /\ fs w' !! "/work/f" = Some (File "ba").
Proof. vm_compute. repeat split. Qed.

(** C7. The 1000 lines that [seq 1000] prints, each ended by a newline, are
    split into 1001 pieces, the last one empty: under ["both"] they come
    back as the first 25 lines, a marker that reads 951, and the last 24
    lines with the empty piece.  In the same way 50 lines, which are within
    the limit, are cut under ["first"] with a marker of one more line. *)
Theorem C7_terminated_output_off_by_one :
  let w := Demo.world YOLO ∅ [] in
  let lines := Demo.numbered_lines 1000 in
  let shown := field_of "stdout"
                 (run_bash (VStr "seq 1000") (VInt 30) (VStr "both") w) in
  length lines = 1000%nat
  /\ subprocess_run "seq 1000" (clamp_timeout 30) (fs w) (stdin w) =
     (inr {| returncode := 0; stdout := Demo.seq_output 1000; stderr := "" |},
      fs w, stdin w)
  /\ length (PyStr.split_nl (Demo.seq_output 1000)) = 1001%nat
  /\ shown =
     Some (JStr (PyStr.join_nl (firstn 25 lines) +:+ PyStr.nl_str
                 +:+ "... (951 lines omitted) ..." +:+ PyStr.nl_str
                 +:+ PyStr.join_nl (skipn 976 lines) +:+ PyStr.nl_str))
  /\ shown <>
     Some (JStr (PyStr.join_nl (firstn 25 lines) +:+ PyStr.nl_str
                 +:+ "... (950 lines omitted) ..." +:+ PyStr.nl_str
                 +:+ PyStr.join_nl (skipn 975 lines)))
  /\ truncate_output "first" (Demo.seq_output 50) 50 =
     PyStr.join_nl (Demo.numbered_lines 50) +:+ PyStr.nl_str
       +:+ "... (1 more lines)".
Proof.
  cbv zeta. split; [vm_compute; reflexivity |].
  split; [vm_compute; reflexivity |].
  split; [vm_compute; reflexivity |].
  assert (E : field_of "stdout"
                (run_bash (VStr "seq 1000") (VInt 30) (VStr "both")
                   (Demo.world YOLO ∅ [])) =
              Some (JStr (PyStr.join_nl (firstn 25 (Demo.numbered_lines 1000))
                          +:+ PyStr.nl_str
                          +:+ "... (951 lines omitted) ..." +:+ PyStr.nl_str
                          +:+ PyStr.join_nl (skipn 976 (Demo.numbered_lines 1000))
                          +:+ PyStr.nl_str)))
    by (vm_compute; reflexivity).
  split; [exact E |].
  split; [|vm_compute; reflexivity].
  rewrite E. apply differ. vm_compute. reflexivity.
Qed.


(** The theorems above at concrete inputs. *)

Lemma C8_witness :
  let w := world YOLO ∅ [] in
  first_match DANGEROUS_PATTERNS "echo hi" = None
  /\ clamp_timeout 30 = 30
  /\ clamp_timeout 5000 = 600
  /\ run_bash (VStr "echo hi") (VInt 5000) (VStr "both") w =
     (Ret [("success", JBool true); ("exit_code", JInt 0);
           ("stdout", JStr ("hi" +:+ PyStr.nl_str)); ("stderr", JStr "")],
      after_shell "echo hi" 600 (fs w) (stdin w) w).
Proof.
  intros w.
  assert (H : first_match DANGEROUS_PATTERNS "echo hi" = None)
    by (vm_compute; reflexivity).
  split; [exact H |].
  split; [exact (proj1 (proj2 (C8_timeout_clamped "echo hi" 30 (VStr "both")
                                 w H))
                   ltac:(lia)) |].
  split; [exact (proj1 (proj2 (proj2 (proj2 (proj2
                   (C8_timeout_clamped "echo hi" 30 (VStr "both") w H)))))) |].
  exact (proj2 (proj2 (proj2 (proj2 (proj2 (proj2 (proj2
           (C8_timeout_clamped "echo hi" 5000 (VStr "both") w H)))))))).
Defined.

Lemma output_shaping_unterminated_witness :
  let w := world YOLO ∅ [] in
  let command := "seq 1000 | head -c -1" in
  let l := "1" in
  let ls := tl (numbered_lines 1000) in
  let done := {| returncode := 0; stdout := PyStr.join_nl (l :: ls);
                 stderr := EmptyString |} in
  first_match DANGEROUS_PATTERNS command = None
  /\ subprocess_run command (clamp_timeout 30) (fs w) (stdin w) =
     (inr done, fs w, stdin w)
  /\ forallb one_line (l :: ls) = true
  /\ length (l :: ls) = 1000%nat
  /\ field_of "stdout" (run_bash (VStr command) (VInt 30) (VStr "both") w) =
     Some (JStr (PyStr.join_nl (firstn 25 (l :: ls)) +:+ PyStr.nl_str
                 +:+ "... (950 lines omitted) ..." +:+ PyStr.nl_str
                 +:+ PyStr.join_nl (skipn 975 (l :: ls))))
  /\ field_of "stdout" (run_bash (VStr command) (VInt 30) (VStr "all") w) =
     Some (JStr (stdout done))
  /\ run_bash (VStr command) (VInt 30) (VStr "middle") w =
     run_bash (VStr command) (VInt 30) (VStr "both") w.
Proof.
  intros w command l ls done.
  assert (H1 : first_match DANGEROUS_PATTERNS command = None)
    by (vm_compute; reflexivity).
  assert (H2 : subprocess_run command (clamp_timeout 30) (fs w) (stdin w) =
               (inr done, fs w, stdin w))
    by (vm_compute; reflexivity).
  assert (H3 : forallb one_line (l :: ls) = true) by (vm_compute; reflexivity).
  assert (H4 : length (l :: ls) = 1000%nat) by (vm_compute; reflexivity).
  pose proof (output_shaping_unterminated command 30 w done (fs w) (stdin w)
                l ls H1 H2 H3 H4 eq_refl)
    as (Hboth & Hall & Hmode).
  do 4 (split; [assumption |]).
  split; [exact Hboth |]. split; [exact Hall |].
  apply Hmode. intros s Hin E. injection E as <-.
  vm_compute in Hin. intuition discriminate.
Defined.




Lemma C9_witness :
  let w := world DEFAULT ∅ [Line "y"] in
  let otherwise : M (bool * option string) := raise ValueError "not reached" in
  lookup_tool "run_python" TOOLS = None
  /\ execute_tool_with otherwise "run_python" ∅ w =
     (Ret (json_dumps (failure "Unknown tool: run_python")), w)
  /\ lookup_tool "run_bash" TOOLS <> None
  /\ check_permission_with otherwise "run_bash" root_wipe w =
     check_permission "run_bash" root_wipe w.
Proof.
  intros w otherwise.
  assert (Hnone : lookup_tool "run_python" TOOLS = None) by reflexivity.
  assert (Hsome : lookup_tool "run_bash" TOOLS <> None) by discriminate.
  split; [exact Hnone |].
  split; [exact (proj1 (proj2 (C9_fail_open_unreachable otherwise
                                 "run_python" ∅ w)) Hnone) |].
  split; [exact Hsome |].
  exact (proj1 (proj2 (proj2 (C9_fail_open_unreachable otherwise
                                "run_bash" root_wipe w))) Hsome).
Defined.

End Examples.

(** * Further properties of the code *)

Section Frame.
Context `{R : Runtime} {B : Type} (proj : World -> B).

Lemma preserves_ret {A} (a : A) : preserves proj (ret a).
Proof. intros w. reflexivity. Qed.

Lemma preserves_raise {A} (k : exn_kind) (msg : string) :
  preserves proj (@raise A k msg).
Proof. intros w. reflexivity. Qed.

Lemma preserves_reraise {A} (e : exn) : preserves proj (@reraise A e).
Proof. intros w. reflexivity. Qed.

Lemma preserves_get : preserves proj get.
Proof. intros w. reflexivity. Qed.

Lemma preserves_lift {A} (r : exn + A) : preserves proj (lift r).
Proof. intros w. destruct r; reflexivity. Qed.

Lemma preserves_bind {A C} (m : M A) (f : A -> M C) :
  preserves proj m -> (forall a, preserves proj (f a)) ->
  preserves proj (bind m f).
Proof.
  intros Hm Hf w. unfold bind. specialize (Hm w).
  destruct (m w) as [[a|e] w1]; cbn in *; [|exact Hm].
  rewrite <- Hm. apply Hf.
Qed.

Lemma preserves_try_except {A} (body : M A) (handler : exn -> option (M A)) :
  preserves proj body ->
  (forall e h, handler e = Some h -> preserves proj h) ->
  preserves proj (try_except body handler).
Proof.
  intros Hb Hh w. unfold try_except. specialize (Hb w).
  destruct (body w) as [[a|e] w1]; cbn in *; [exact Hb |].
  destruct (handler e) as [h|] eqn:E; [|exact Hb].
  rewrite <- Hb. exact (Hh e h E w1).
Qed.

Lemma preserves_modify (f : World -> World) :
  (forall w, proj (f w) = proj w) -> preserves proj (modify f).
Proof. intros H w. apply H. Qed.

End Frame.

Ltac frame_step :=
  match goal with
  | |- preserves _ (ret _) => apply preserves_ret
  | |- preserves _ (raise _ _) => apply preserves_raise
  | |- preserves _ (reraise _) => apply preserves_reraise
  | |- preserves _ get => apply preserves_get
  | |- preserves _ (lift _) => apply preserves_lift
  | |- preserves _ (bind _ _) => apply preserves_bind; [|intros ?]
  | |- preserves _ (modify _) =>
      apply preserves_modify; intros ?; solve [auto | reflexivity]
  | |- preserves _ (match ?x with _ => _ end) => destruct x
  end.

Ltac frame := repeat frame_step.

(** The parts of the world the executors leave alone are those that neither
    [with_fs] nor [with_log] touches; the gate also uses [with_stdin]. *)
Section FrameOfTheAgent.
Context `{R : Runtime} {B : Type} (proj : World -> B).
Hypothesis Hfs : forall f w, proj (with_fs f w) = proj w.
Hypothesis Hlog : forall l w, proj (with_log l w) = proj w.

Local Hint Resolve Hfs Hlog : core.

Lemma preserves_emit (e : event) : preserves proj (emit e).
Proof. unfold emit. apply preserves_modify. auto. Qed.

Lemma preserves_except_Exception (e : exn) (h : M jdict) :
  except_Exception e = Some h -> preserves proj h.
Proof.
  unfold except_Exception. destruct (is_Exception e); [|discriminate].
  intros [= <-]. apply preserves_ret.
Qed.

Lemma preserves_read_file (filename : pyval) :
  preserves proj (read_file filename).
Proof.
  unfold read_file, resolve_path, as_path, read_text.
  apply preserves_try_except; [frame |].
  intros e h. destruct (kind e);
    try apply preserves_except_Exception.
  intros [= <-]. frame.
Qed.

Lemma preserves_list_files (path : pyval) : preserves proj (list_files path).
Proof.
  unfold list_files, resolve_path, as_path.
  apply preserves_try_except; [frame | apply preserves_except_Exception].
Qed.

Lemma preserves_write_text (p : string) (c : pyval) :
  preserves proj (write_text p c).
Proof. unfold write_text. frame. Qed.

Lemma preserves_write_file (path content : pyval) :
  preserves proj (write_file path content).
Proof.
  unfold write_file, resolve_path, as_path.
  apply preserves_try_except; [|apply preserves_except_Exception].
  frame; apply preserves_write_text.
Qed.

Lemma preserves_edit_file (path old_text new_text : pyval) :
  preserves proj (edit_file path old_text new_text).
Proof.
  unfold edit_file, resolve_path, as_path, read_text, str_count,
    str_replace_first.
  apply preserves_try_except; [|apply preserves_except_Exception].
  frame; apply preserves_write_text.
Qed.

Lemma preserves_bind_kwargs (fname : string) (required optional : list string)
    (arguments : gmap string pyval) :
  preserves proj (bind_kwargs fname required optional arguments).
Proof. unfold bind_kwargs. frame. Qed.

(** The tools that start no subprocess. *)
Lemma preserves_quiet_tool (name : string)
    (tool : gmap string pyval -> M jdict) (arguments : gmap string pyval) :
  name <> "run_bash" ->
  lookup_tool name TOOLS = Some tool -> preserves proj (tool arguments).
Proof.
  intros Hname. unfold lookup_tool, TOOLS.
  repeat match goal with
         | |- context [String.eqb ?known name] =>
             destruct (String.eqb known name) eqn:?;
             [intros [= <-]; frame;
              first [ apply preserves_bind_kwargs | apply preserves_read_file
                    | apply preserves_list_files | apply preserves_write_file
                    | apply preserves_edit_file | apply preserves_emit
                    | exfalso; apply Hname; symmetry;
                      now apply String.eqb_eq ] |]
         end.
  discriminate.
Qed.

Hypothesis Hstdin : forall i w, proj (with_stdin i w) = proj w.

Local Hint Resolve Hstdin : core.

Lemma preserves_run_bash (command timeout output_lines : pyval) :
  preserves proj (run_bash command timeout output_lines).
Proof.
  unfold run_bash, check_dangerous_command, as_number, run_subprocess.
  frame; try apply preserves_emit;
    (apply preserves_try_except;
     [frame; apply preserves_emit
     | intros e h; destruct (kind e);
       try apply preserves_except_Exception; intros [= <-]; frame]).
Qed.

Lemma preserves_tool (name : string) (tool : gmap string pyval -> M jdict)
    (arguments : gmap string pyval) :
  lookup_tool name TOOLS = Some tool -> preserves proj (tool arguments).
Proof.
  unfold lookup_tool, TOOLS.
  repeat match goal with
         | |- context [String.eqb ?known name] =>
             destruct (String.eqb known name);
             [intros [= <-]; frame;
              first [ apply preserves_bind_kwargs | apply preserves_read_file
                    | apply preserves_list_files | apply preserves_write_file
                    | apply preserves_edit_file | apply preserves_run_bash
                    | apply preserves_emit ] |]
         end.
  discriminate.
Qed.

Lemma preserves_input : preserves proj input.
Proof.
  intros w. unfold input. destruct (stdin w) as [|[s| |] rest]; cbn; auto.
Qed.

Lemma preserves_prompt_user (action details : string) :
  preserves proj (prompt_user action details).
Proof.
  unfold prompt_user. frame; [apply preserves_emit |].
  apply preserves_try_except; [frame; apply preserves_input |].
  intros e h. destruct (kind e); try discriminate; intros [= <-]; frame.
Qed.

Lemma preserves_check_permission (otherwise : M (bool * option string))
    (name : string) (args : gmap string pyval) :
  preserves proj otherwise ->
  preserves proj (check_permission_with otherwise name args).
Proof.
  intros Ho. unfold check_permission_with, to_relative_path, as_path,
    line_count, preview.
  frame; try apply preserves_prompt_user; try exact Ho.
Qed.

Lemma preserves_execute_tool (name : string) (arguments : gmap string pyval) :
  preserves proj (execute_tool name arguments).
Proof.
  unfold execute_tool, execute_tool_with.
  destruct (lookup_tool name TOOLS) as [tool|] eqn:E; [|frame].
  apply preserves_bind;
    [apply preserves_check_permission, preserves_ret | intros verdict].
  destruct (negb (fst verdict)); [frame |].
  apply preserves_try_except.
  - unfold as_number. frame; try apply preserves_emit.
    eapply preserves_tool, E.
  - intros e h. destruct (is_Exception e); [|discriminate].
    intros [= <-]. frame.
Qed.

End FrameOfTheAgent.

Section FrameOfTheLoop.
Context `{R : Runtime} {B : Type} (proj : World -> B).
Hypothesis Hfs : forall f w, proj (with_fs f w) = proj w.
Hypothesis Hlog : forall l w, proj (with_log l w) = proj w.
Hypothesis Hstdin : forall i w, proj (with_stdin i w) = proj w.
Hypothesis Hmessages : forall m w, proj (with_messages m w) = proj w.
Hypothesis Htokens : forall t w, proj (with_tokens t w) = proj w.

Local Hint Resolve Hfs Hlog Hstdin Hmessages Htokens : core.

Lemma preserves_format_tool_call (name : string) (args : gmap string pyval) :
  preserves proj (format_tool_call name args).
Proof.
  unfold format_tool_call, to_relative_path, as_path, line_count. frame.
Qed.

Lemma preserves_append_message (m : message) :
  preserves proj (append_message m).
Proof. unfold append_message. frame. Qed.

Lemma preserves_tokens_add (response : ChatResponse) :
  preserves proj (tokens_add response).
Proof. unfold tokens_add. frame. Qed.

Lemma preserves_run_tool_calls (calls : list tool_call) :
  preserves proj (run_tool_calls calls).
Proof.
  induction calls as [|call rest IH]; cbn [run_tool_calls]; [frame |].
  frame; auto using preserves_format_tool_call, preserves_emit,
    preserves_execute_tool, preserves_append_message.
Qed.

Lemma preserves_agent_loop (fuel : nat) : preserves proj (agent_loop fuel).
Proof.
  induction fuel as [|fuel IH]; cbn [agent_loop]; [frame |].
  frame;
    auto using preserves_emit, preserves_run_tool_calls,
      preserves_append_message, preserves_tokens_add.
  apply preserves_try_except; [frame |].
  intros e h. destruct (is_Exception e); [|discriminate].
  intros [= <-]. unfold pop_message. frame; auto using preserves_emit.
Qed.

End FrameOfTheLoop.

Section SessionFacts.
Context `{R : Runtime}.

(** X1. Dispatching a tool call, whatever the tool, the arguments and the
    user's answers, leaves the permission mode and the token counters as
    they were, whether the dispatcher returns or raises. *)
Theorem dispatcher_keeps_session (name : string) (arguments : gmap string pyval)
    (w : World) :
  let w' := snd (execute_tool name arguments w) in
  PERMISSION_MODE w' = PERMISSION_MODE w
  /\ tokens w' = tokens w.
Proof.
  split; apply (preserves_execute_tool _); reflexivity.
Qed.

(** X2. A whole user turn (the calls of the model and every tool call they
    lead to) never changes the permission mode: only the [/mode] command
    does. *)
Theorem turn_keeps_permission_mode (fuel : nat) (user_input : string)
    (w : World) :
  PERMISSION_MODE (snd (user_turn fuel user_input w)) = PERMISSION_MODE w.
Proof.
  revert w. change (preserves PERMISSION_MODE (user_turn fuel user_input)).
  unfold user_turn, append_message. frame.
  apply preserves_agent_loop; reflexivity.
Qed.

End SessionFacts.

Section Quiet.
Context `{R : Runtime} (P : event -> Prop).

Lemma emits_nothing {A} (m : M A) :
  (forall w, log (snd (m w)) = log w) -> emits_only P m.
Proof. intros H w. exists []. rewrite H, app_nil_r. auto. Qed.

Lemma emits_ret {A} (a : A) : emits_only P (ret a).
Proof. now apply emits_nothing. Qed.

Lemma emits_raise {A} (k : exn_kind) (msg : string) :
  emits_only P (@raise A k msg).
Proof. now apply emits_nothing. Qed.

Lemma emits_reraise {A} (e : exn) : emits_only P (@reraise A e).
Proof. now apply emits_nothing. Qed.

Lemma emits_get : emits_only P get.
Proof. now apply emits_nothing. Qed.

Lemma emits_lift {A} (r : exn + A) : emits_only P (lift r).
Proof. apply emits_nothing. intros w. now destruct r. Qed.

Lemma emits_modify (f : World -> World) :
  (forall w, log (f w) = log w) -> emits_only P (modify f).
Proof. intros H. now apply emits_nothing. Qed.

Lemma emits_emit (e : event) : P e -> emits_only P (emit e).
Proof. intros H w. exists [e]. split; [reflexivity | auto]. Qed.

Lemma emits_bind {A C} (m : M A) (f : A -> M C) :
  emits_only P m -> (forall a, emits_only P (f a)) -> emits_only P (bind m f).
Proof.
  intros Hm Hf w. unfold bind. destruct (Hm w) as (evs & E & HP).
  destruct (m w) as [[a|e] w1]; cbn in *; [|now exists evs].
  destruct (Hf a w1) as (evs' & E' & HP').
  exists (evs ++ evs')%list. rewrite E', E, app_assoc.
  split; [reflexivity | now apply Forall_app].
Qed.

Lemma emits_try_except {A} (body : M A) (handler : exn -> option (M A)) :
  emits_only P body ->
  (forall e h, handler e = Some h -> emits_only P h) ->
  emits_only P (try_except body handler).
Proof.
  intros Hb Hh w. unfold try_except. destruct (Hb w) as (evs & E & HP).
  destruct (body w) as [[a|e] w1]; cbn in *; [now exists evs |].
  destruct (handler e) as [h|] eqn:Eh; [|now exists evs].
  destruct (Hh e h Eh w1) as (evs' & E' & HP').
  exists (evs ++ evs')%list. rewrite E', E, app_assoc.
  split; [reflexivity | now apply Forall_app].
Qed.

Lemma emits_input : emits_only P input.
Proof.
  apply emits_nothing. intros w. unfold input.
  now destruct (stdin w) as [|[s| |] rest].
Qed.

End Quiet.

Ltac quiet_step :=
  match goal with
  | |- emits_only _ (ret _) => apply emits_ret
  | |- emits_only _ (raise _ _) => apply emits_raise
  | |- emits_only _ (reraise _) => apply emits_reraise
  | |- emits_only _ get => apply emits_get
  | |- emits_only _ (lift _) => apply emits_lift
  | |- emits_only _ input => apply emits_input
  | |- emits_only _ (bind _ _) => apply emits_bind; [|intros ?]
  | |- emits_only _ (modify _) => apply emits_modify; intros ?; reflexivity
  | |- emits_only _ (emit _) => apply emits_emit; exact I
  | |- emits_only _ (match ?x with _ => _ end) => destruct x
  end.

Ltac quiet := repeat quiet_step.

Section QuietAgent.
Context `{R : Runtime} (P : event -> Prop).

Lemma emits_except_Exception (e : exn) (h : M jdict) :
  except_Exception e = Some h -> emits_only P h.
Proof.
  unfold except_Exception. destruct (is_Exception e); [|discriminate].
  intros [= <-]. apply emits_ret.
Qed.

Lemma emits_read_file (filename : pyval) : emits_only P (read_file filename).
Proof.
  unfold read_file, resolve_path, as_path, read_text.
  apply emits_try_except; [quiet |].
  intros e h. destruct (kind e); try apply emits_except_Exception.
  intros [= <-]. quiet.
Qed.

Lemma emits_list_files (path : pyval) : emits_only P (list_files path).
Proof.
  unfold list_files, resolve_path, as_path.
  apply emits_try_except; [quiet | apply emits_except_Exception].
Qed.

Lemma emits_write_file (path content : pyval) :
  emits_only P (write_file path content).
Proof.
  unfold write_file, resolve_path, as_path, write_text.
  apply emits_try_except; [quiet | apply emits_except_Exception].
Qed.

Lemma emits_edit_file (path old_text new_text : pyval) :
  emits_only P (edit_file path old_text new_text).
Proof.
  unfold edit_file, resolve_path, as_path, read_text, str_count,
    str_replace_first, write_text.
  apply emits_try_except; [quiet | apply emits_except_Exception].
Qed.

Lemma emits_bind_kwargs (fname : string) (required optional : list string)
    (arguments : gmap string pyval) :
  emits_only P (bind_kwargs fname required optional arguments).
Proof. unfold bind_kwargs. quiet. Qed.

Lemma emits_prompt_user (action details : string) :
  P (EvPrompt action details) ->
  emits_only P (prompt_user action details).
Proof.
  intros HP. unfold prompt_user.
  apply emits_bind; [now apply emits_emit | intros _].
  apply emits_try_except; [quiet |].
  intros e h. destruct (kind e); try discriminate; intros [= <-]; quiet.
Qed.

End QuietAgent.

Section GateFacts.
Context `{R : Runtime}.

Lemma execute_tool_unfold (otherwise : M (bool * option string))
    (name : string) (arguments : gmap string pyval) :
  execute_tool_with otherwise name arguments =
  match lookup_tool name TOOLS with
  | None => ret (json_dumps (failure ("Unknown tool: " +:+ name)))
  | Some tool =>
      verdict <- check_permission_with otherwise name arguments ;;
      if negb (fst verdict) then
        ret (json_dumps
               [("success", JBool false);
                ("error", match snd verdict with
                          | Some error => JStr error
                          | None => JNull
                          end)])
      else dispatched name tool arguments
  end.
Proof. reflexivity. Qed.

(** When the gate allows a call without touching the world, the dispatcher
    runs the [try] block from that world. *)
Lemma execute_tool_allowed (name : string)
    (tool : gmap string pyval -> M jdict) (arguments : gmap string pyval)
    (w w1 : World) :
  lookup_tool name TOOLS = Some tool ->
  check_permission name arguments w = (Ret allowed, w1) ->
  execute_tool name arguments w = dispatched name tool arguments w1.
Proof.
  intros Htool Hgate. unfold execute_tool. rewrite execute_tool_unfold, Htool.
  unfold bind. fold (check_permission name arguments). now rewrite Hgate.
Qed.

(** [prompt_user] never raises: it shows the question, takes one answer
    off the input, and approves exactly on a yes. *)
Lemma prompt_user_run (action details : string) (w : World) :
  prompt_user action details w =
  (Ret (approves (stdin w)), after_prompt action details w).
Proof.
  unfold prompt_user, input, after_prompt, emit, modify, bind, try_except, ret.
  destruct w as [mode files answers history used events].
  cbn [stdin log with_log with_stdin PERMISSION_MODE fs messages tokens].
  destruct answers as [|[s| |] rest]; reflexivity.
Qed.

(** The gate on a read-only tool, in every mode. *)
Lemma gate_read_only (name : string) (args : gmap string pyval) (w : World) :
  In name read_only_tools -> check_permission name args w = (Ret allowed, w).
Proof.
  intros Hin. unfold check_permission, check_permission_with.
  replace (existsb (String.eqb name) read_only_tools) with true; [reflexivity |].
  symmetry. apply existsb_exists. exists name.
  split; [exact Hin | apply String.eqb_refl].
Qed.

(** The gate in the yolo mode. *)
Lemma gate_yolo (name : string) (args : gmap string pyval) (w : World) :
  PERMISSION_MODE w = YOLO -> check_permission name args w = (Ret allowed, w).
Proof.
  intros Hmode. unfold check_permission, check_permission_with.
  destruct (existsb (String.eqb name) read_only_tools); [reflexivity |].
  unfold bind, get. now rewrite Hmode.
Qed.

(** The gate on a shell command outside the yolo mode: the user is asked
    about the command as it was given, and the answer decides. *)
Lemma gate_run_bash (args : gmap string pyval) (w : World) :
  PERMISSION_MODE w <> YOLO ->
  check_permission "run_bash" args w =
  (Ret (if approves (stdin w) then allowed
        else declined "User declined to run command"),
   after_prompt "Run command" (py_str (get_arg args "command" (VStr "?"))) w).
Proof.
  intros Hmode. unfold check_permission, check_permission_with.
  change (existsb (String.eqb "run_bash") read_only_tools) with false.
  cbv beta iota. unfold bind at 1. unfold get.
  destruct (PERMISSION_MODE w); try congruence;
    change (String.eqb "run_bash" "write_file") with false;
    change (String.eqb "run_bash" "edit_file") with false;
    change (String.eqb "run_bash" "run_bash") with true;
    cbv beta iota; unfold bind; rewrite prompt_user_run;
    destruct (approves (stdin w)); reflexivity.
Qed.

End GateFacts.

Section MoreQuiet.
Context `{R : Runtime} (P : event -> Prop).
Hypothesis Pweb_search : forall a, P (EvWebSearch a).
Hypothesis Pweb_fetch : forall a, P (EvWebFetch a).

Lemma emits_run_bash (command timeout output_lines : pyval) :
  (forall c t, P (EvShell c t)) ->
  emits_only P (run_bash command timeout output_lines).
Proof.
  intros Pshell.
  unfold run_bash, check_dangerous_command, as_number, run_subprocess.
  quiet;
    (apply emits_try_except;
     [apply emits_bind; [|intros ?; quiet];
      apply emits_bind; [now apply emits_emit | intros ?; quiet]
     | intros e h; destruct (kind e);
       try apply emits_except_Exception; intros [= <-]; quiet]).
Qed.

Lemma emits_tool (name : string) (tool : gmap string pyval -> M jdict)
    (arguments : gmap string pyval) :
  lookup_tool name TOOLS = Some tool ->
  (name = "run_bash" -> forall c t, P (EvShell c t)) ->
  emits_only P (tool arguments).
Proof.
  unfold lookup_tool, TOOLS. intros Htool Pshell. revert Htool.
  repeat match goal with
         | |- context [String.eqb ?known name] =>
             destruct (String.eqb_spec known name) as [E|_];
             [intros [= <-]; quiet;
              first [ apply emits_bind_kwargs | apply emits_read_file
                    | apply emits_list_files | apply emits_write_file
                    | apply emits_edit_file
                    | apply emits_run_bash; now apply Pshell
                    | now apply emits_emit
                    | apply emits_lift | apply emits_ret ] |]
         end.
  discriminate.
Qed.

Lemma emits_dispatched (name : string) (tool : gmap string pyval -> M jdict)
    (arguments : gmap string pyval) :
  lookup_tool name TOOLS = Some tool ->
  (name = "run_bash" -> forall c t, P (EvShell c t)) ->
  emits_only P (dispatched name tool arguments).
Proof.
  intros Htool Pshell. unfold dispatched, as_number.
  apply emits_try_except.
  - destruct (String.eqb name "web_search");
      [|destruct (String.eqb name "web_fetch")].
    + apply emits_bind; [quiet | intros ?].
      apply emits_bind; [now apply emits_emit | intros ?]. quiet.
    + apply emits_bind; [now apply emits_emit | intros ?]. quiet.
    + apply emits_bind; [now apply emits_tool with (name := name) | intros ?].
      quiet.
  - intros e h. destruct (is_Exception e); [|discriminate].
    intros [= <-]. quiet.
Qed.

Lemma emits_check_permission (otherwise : M (bool * option string))
    (name : string) (args : gmap string pyval) :
  (forall a d, P (EvPrompt a d)) ->
  emits_only P otherwise ->
  emits_only P (check_permission_with otherwise name args).
Proof.
  intros Pprompt Ho.
  unfold check_permission_with, to_relative_path, as_path, line_count, preview.
  quiet; try exact Ho; try (apply emits_prompt_user; apply Pprompt).
Qed.

End MoreQuiet.

Section DispatcherFacts.
Context `{R : Runtime}.

Lemma preserves_dispatched {B} (proj : World -> B) (name : string)
    (tool : gmap string pyval -> M jdict) (arguments : gmap string pyval) :
  (forall f w, proj (with_fs f w) = proj w) ->
  (forall l w, proj (with_log l w) = proj w) ->
  (forall i w, proj (with_stdin i w) = proj w) ->
  lookup_tool name TOOLS = Some tool ->
  preserves proj (dispatched name tool arguments).
Proof.
  intros Hfs Hlog Hstdin Htool. unfold dispatched, as_number.
  apply preserves_try_except.
  - frame; try (apply preserves_emit; exact Hlog).
    eapply preserves_tool; eauto.
  - intros e h. destruct (is_Exception e); [|discriminate].
    intros [= <-]. frame.
Qed.

(** The same for the tools that start no subprocess, which leave the
    terminal input alone as well. *)
Lemma preserves_dispatched_quiet {B} (proj : World -> B) (name : string)
    (tool : gmap string pyval -> M jdict) (arguments : gmap string pyval) :
  (forall f w, proj (with_fs f w) = proj w) ->
  (forall l w, proj (with_log l w) = proj w) ->
  name <> "run_bash" ->
  lookup_tool name TOOLS = Some tool ->
  preserves proj (dispatched name tool arguments).
Proof.
  intros Hfs Hlog Hname Htool. unfold dispatched, as_number.
  apply preserves_try_except.
  - frame; try (apply preserves_emit; exact Hlog).
    eapply preserves_quiet_tool; eauto.
  - intros e h. destruct (is_Exception e); [|discriminate].
    intros [= <-]. frame.
Qed.

(** The [try] block lets no [Exception] through. *)
Lemma dispatched_raises (name : string) (tool : gmap string pyval -> M jdict)
    (arguments : gmap string pyval) (w w' : World) (e : exn) :
  dispatched name tool arguments w = (Raise e, w') -> is_Exception e = false.
Proof.
  unfold dispatched, try_except.
  match goal with
  | |- context [match ?body w with _ => _ end] =>
      destruct (body w) as [[a|e0] w1]
  end; [discriminate |].
  destruct (is_Exception e0) eqn:E; [discriminate |].
  now intros [= <- _].
Qed.

(** X3. Dispatching a read-only tool never asks the user and never touches
    the files, in any permission mode. *)
Theorem read_only_tools_never_ask (name : string)
    (arguments : gmap string pyval) (w : World) :
  In name read_only_tools ->
  let w' := snd (execute_tool name arguments w) in
  fs w' = fs w
  /\ stdin w' = stdin w
  /\ exists evs, log w' = (log w ++ evs)%list /\ List.Forall not_prompt evs.
Proof.
  intros Hin.
  assert (exists tool, lookup_tool name TOOLS = Some tool) as [tool Htool].
  { cbn in Hin. destruct Hin as [<-|[<-|[<-|[<-|[]]]]]; eexists; reflexivity. }
  cbv zeta.
  rewrite (execute_tool_allowed _ _ _ _ _ Htool (gate_read_only _ _ _ Hin)).
  split; [|split].
  - cbn in Hin.
    destruct Hin as [<-|[<-|[<-|[<-|[]]]]]; injection Htool as <-;
      unfold dispatched;
      (apply preserves_try_except;
       [ cbv beta iota; unfold as_number; frame;
         first [ apply preserves_bind_kwargs | apply preserves_read_file
               | apply preserves_list_files
               | apply preserves_emit; reflexivity ]
       | intros e h; destruct (is_Exception e); [|discriminate];
         intros [= <-]; frame ]).
  - apply (preserves_dispatched_quiet stdin); auto.
    cbn in Hin. destruct Hin as [<-|[<-|[<-|[<-|[]]]]]; discriminate.
  - apply (emits_dispatched not_prompt); try exact Htool; intros; exact I.
Qed.

(** X4. In the yolo mode no tool call makes the agent ask the user: no
    permission prompt is shown, whatever the tool and its arguments. *)
Theorem yolo_never_asks (name : string) (arguments : gmap string pyval)
    (w : World) :
  PERMISSION_MODE w = YOLO ->
  exists evs,
    log (snd (execute_tool name arguments w)) = (log w ++ evs)%list
    /\ List.Forall not_prompt evs.
Proof.
  intros Hmode.
  destruct (lookup_tool name TOOLS) as [tool|] eqn:Htool.
  - rewrite (execute_tool_allowed _ _ _ _ _ Htool (gate_yolo _ _ _ Hmode)).
    apply (emits_dispatched not_prompt); try exact Htool; intros; exact I.
  - unfold execute_tool. rewrite execute_tool_unfold, Htool. cbn.
    exists []. now rewrite app_nil_r.
Qed.

(** X5. No tool but [run_bash] ever starts a subprocess. *)
Theorem only_run_bash_starts_processes (name : string)
    (arguments : gmap string pyval) (w : World) :
  name <> "run_bash" ->
  exists evs,
    log (snd (execute_tool name arguments w)) = (log w ++ evs)%list
    /\ List.Forall not_shell evs.
Proof.
  intros Hname. revert w.
  change (emits_only not_shell (execute_tool name arguments)).
  unfold execute_tool. rewrite execute_tool_unfold.
  destruct (lookup_tool name TOOLS) as [tool|] eqn:Htool; [|apply emits_ret].
  apply emits_bind.
  - apply emits_check_permission; [intros; exact I | apply emits_ret].
  - intros verdict. destruct (negb (fst verdict)); [apply emits_ret |].
    apply emits_dispatched; try exact Htool; try (intros; exact I).
    intros E. now destruct Hname.
Qed.

End DispatcherFacts.

Section ShellFacts.
Context `{R : Runtime}.

(** Binding keyword arguments changes nothing and can only fail with a
    [TypeError]. *)
Lemma bind_kwargs_cases (fname : string) (required optional : list string)
    (arguments : gmap string pyval) (w : World) :
  bind_kwargs fname required optional arguments w = (Ret tt, w)
  \/ exists msg,
      bind_kwargs fname required optional arguments w =
      (Raise (Exn TypeError msg), w).
Proof.
  unfold bind_kwargs.
  destruct (negb _); [right; eexists; reflexivity |].
  destruct (negb _); [right; eexists; reflexivity |].
  now left.
Qed.

(** It succeeds when every keyword is a parameter and every required
    parameter is given. *)
Lemma bind_kwargs_ok (fname : string) (required optional : list string)
    (arguments : gmap string pyval) (w : World) :
  (forall k, is_Some (arguments !! k) -> In k (required ++ optional)) ->
  (forall k, In k required -> is_Some (arguments !! k)) ->
  bind_kwargs fname required optional arguments w = (Ret tt, w).
Proof.
  intros Hknown Hgiven. unfold bind_kwargs.
  replace (forallb _ (map fst (map_to_list arguments))) with true.
  - replace (forallb _ required) with true; [reflexivity |].
    symmetry. apply forallb_forall. intros k Hk.
    apply bool_decide_eq_true. now apply Hgiven.
  - symmetry. apply forallb_forall. intros k Hk.
    apply in_map_iff in Hk as ([k' v] & <- & Hin).
    apply list_elem_of_In, elem_of_map_to_list in Hin.
    apply existsb_exists. exists k'. split; [|apply String.eqb_refl].
    apply Hknown. cbn. eauto.
Qed.

Lemma run_bash_tool : lookup_tool "run_bash" TOOLS = Some run_bash_entry.
Proof. reflexivity. Qed.

(** The [try] block on a dangerous command: it returns, and the world is as
    it was. *)
Lemma dispatched_dangerous (tool : gmap string pyval -> M jdict)
    (arguments : gmap string pyval) (command explanation : string) (w : World) :
  lookup_tool "run_bash" TOOLS = Some tool ->
  arguments !! "command" = Some (VStr command) ->
  first_match DANGEROUS_PATTERNS command = Some explanation ->
  exists d,
    dispatched "run_bash" tool arguments w = (Ret d, w)
    /\ ((forall k, is_Some (arguments !! k) -> In k run_bash_parameters) ->
        d = json_dumps_indent (blocked_result command explanation) 2).
Proof.
  intros Htool Hcommand Hmatch. rewrite run_bash_tool in Htool.
  injection Htool as <-. unfold dispatched, run_bash_entry.
  change (String.eqb "run_bash" "web_search") with false.
  change (String.eqb "run_bash" "web_fetch") with false.
  cbv beta iota. unfold try_except, bind.
  assert (Hget : get_arg arguments "command" VNone = VStr command)
    by (unfold get_arg; now rewrite Hcommand).
  destruct (bind_kwargs_cases "run_bash" ["command"]
              ["timeout"; "output_lines"] arguments w) as [E | (msg & E)].
  - rewrite E, Hget, (run_bash_blocked _ _ _ _ _ Hmatch).
    eexists. split; reflexivity.
  - rewrite E. cbn. eexists. split; [reflexivity |].
    intros Hkeys.
    rewrite bind_kwargs_ok in E; [discriminate | exact Hkeys |].
    intros k [<-|[]]. now rewrite Hcommand.
Qed.

(** X6. A command the blocklist matches never reaches the shell, in any
    permission mode and whatever the user answers: the dispatcher returns a
    result, the files are untouched and no subprocess is started. *)
Theorem dangerous_command_never_runs (arguments : gmap string pyval)
    (command explanation : string) (w : World) :
  arguments !! "command" = Some (VStr command) ->
  first_match DANGEROUS_PATTERNS command = Some explanation ->
  let '(r, w') := execute_tool "run_bash" arguments w in
  (exists d, r = Ret d)
  /\ fs w' = fs w
  /\ exists evs, log w' = (log w ++ evs)%list /\ List.Forall not_shell evs.
Proof.
  intros Hcommand Hmatch.
  destruct (dispatched_dangerous _ arguments command explanation w
              run_bash_tool Hcommand Hmatch) as (d0 & Hyolo & _).
  destruct (PERMISSION_MODE w) eqn:Hmode.
  1, 2:
    assert (Hne : PERMISSION_MODE w <> YOLO) by (rewrite Hmode; discriminate);
    pose proof (gate_run_bash arguments w Hne) as Hgate;
    destruct (approves (stdin w)).
  1, 3:
    rewrite (execute_tool_allowed _ _ _ _ _ run_bash_tool Hgate);
    destruct (dispatched_dangerous _ arguments command explanation
                (after_prompt "Run command"
                   (py_str (get_arg arguments "command" (VStr "?"))) w)
                run_bash_tool Hcommand Hmatch) as (d & -> & _);
    (split; [now exists d |]); (split; [reflexivity |]);
    eexists; split; [reflexivity | repeat constructor].
  1, 2:
    unfold execute_tool;
    rewrite (execute_tool_denied _ _ _ _ _ _ Hgate) by discriminate;
    (split; [eexists; reflexivity |]); (split; [reflexivity |]);
    eexists; split; [reflexivity | repeat constructor].
  rewrite (execute_tool_allowed _ _ _ _ _ run_bash_tool
             (gate_yolo _ _ _ Hmode)), Hyolo.
  split; [now exists d0 |]. split; [reflexivity |].
  exists []. now rewrite app_nil_r.
Qed.

(** X7. Once the gate lets it through (the yolo mode, or a yes), a call of
    [run_bash] whose arguments are all among [command], [timeout] and
    [output_lines], and whose command the blocklist matches, gets the
    blocked result with the explanation of the first pattern that
    matches. *)
Theorem dangerous_command_blocked (arguments : gmap string pyval)
    (command explanation : string) (w : World) :
  arguments !! "command" = Some (VStr command) ->
  (forall k, is_Some (arguments !! k) -> In k run_bash_parameters) ->
  first_match DANGEROUS_PATTERNS command = Some explanation ->
  PERMISSION_MODE w = YOLO \/ approves (stdin w) = true ->
  fst (execute_tool "run_bash" arguments w) =
  Ret (json_dumps_indent (blocked_result command explanation) 2).
Proof.
  intros Hcommand Hkeys Hmatch Hgo.
  assert (Hrun : forall w1,
             fst (dispatched "run_bash" run_bash_entry arguments w1) =
             Ret (json_dumps_indent (blocked_result command explanation) 2)).
  { intros w1.
    destruct (dispatched_dangerous _ arguments command explanation w1
                run_bash_tool Hcommand Hmatch) as (d & -> & Hd).
    now rewrite (Hd Hkeys). }
  destruct (PERMISSION_MODE w) eqn:Hmode.
  1, 2:
    destruct Hgo as [|Hyes]; [discriminate |];
    assert (Hne : PERMISSION_MODE w <> YOLO) by (rewrite Hmode; discriminate);
    pose proof (gate_run_bash arguments w Hne) as Hgate;
    rewrite Hyes in Hgate;
    rewrite (execute_tool_allowed _ _ _ _ _ run_bash_tool Hgate);
    apply Hrun.
  rewrite (execute_tool_allowed _ _ _ _ _ run_bash_tool (gate_yolo _ _ _ Hmode)).
  apply Hrun.
Qed.

(** X8. Outside the yolo mode a shell command the user does not approve is
    refused, whatever its arguments: accepting edits does not accept
    commands.  Nothing happens but the question. *)
Theorem declined_command (arguments : gmap string pyval) (w : World) :
  PERMISSION_MODE w <> YOLO ->
  approves (stdin w) = false ->
  execute_tool "run_bash" arguments w =
  (Ret (json_dumps [("success", JBool false);
                    ("error", JStr "User declined to run command")]),
   after_prompt "Run command"
     (py_str (get_arg arguments "command" (VStr "?"))) w).
Proof.
  intros Hmode Hno. pose proof (gate_run_bash arguments w Hmode) as Hgate.
  rewrite Hno in Hgate. unfold execute_tool.
  now rewrite (execute_tool_denied _ _ _ _ _ _ Hgate) by discriminate.
Qed.

(** X9. Where the gate asks nothing, for the read-only tools and in the
    yolo mode, no [Exception] leaves the dispatcher: what the tool raises
    is turned into a failure result, and only what is no [Exception] (a
    [KeyboardInterrupt]) goes on. *)
Theorem no_exception_escapes_unprompted (name : string)
    (arguments : gmap string pyval) (w : World) :
  In name read_only_tools \/ PERMISSION_MODE w = YOLO ->
  match fst (execute_tool name arguments w) with
  | Ret _ => True
  | Raise e => is_Exception e = false
  end.
Proof.
  intros Hfree.
  assert (Hgate : check_permission name arguments w = (Ret allowed, w)).
  { destruct Hfree as [Hin | Hmode];
      [now apply gate_read_only | now apply gate_yolo]. }
  destruct (lookup_tool name TOOLS) as [tool|] eqn:Htool.
  - rewrite (execute_tool_allowed _ _ _ _ _ Htool Hgate).
    destruct (dispatched name tool arguments w) as [[d|e] w'] eqn:Hrun;
      [exact I |].
    exact (dispatched_raises _ _ _ _ _ _ Hrun).
  - unfold execute_tool. now rewrite execute_tool_unfold, Htool.
Qed.

End ShellFacts.

Section FileFacts.
Context `{R : Runtime}.









Lemma bind_emit {C} (e : event) (f : unit -> M C) (w : World) :
  bind (emit e) f w = f tt (with_log (log w ++ [e]) w).
Proof. reflexivity. Qed.

Lemma bind_append_message {C} (m : message) (f : unit -> M C) (w : World) :
  bind (append_message m) f w = f tt (with_messages (messages w ++ [m]) w).
Proof. reflexivity. Qed.




End FileFacts.

Section ExecutorFacts.
Context `{R : Runtime}.


(** X13. [read_file] never changes anything.  On a regular file it gives
    the text of the file with its newlines translated; on a directory a
    failure; on a name that is no entry of the file system the answer
    "File not found" with the name as it was given when resolving and
    opening it raises [FileNotFoundError], and a failure with the text of
    the error when it raises another [Exception]. *)
Theorem read_file_is_safe (filename : pyval) (p : string) (w : World) :
  snd (read_file filename w) = w
  /\ fst (read_file (VStr p) w) =
     match fs w !! resolve p with
     | Some (File content) =>
         Ret (read_result (resolve p) (PyStr.universal_newlines content))
     | Some Directory => Ret (failure "Is a directory")
     | None =>
         let e := open_error (resolve p) (fs w) in
         match kind e with
         | FileNotFoundError => Ret (failure ("File not found: " +:+ p))
         | _ => if is_Exception e then Ret (failure (text e)) else Raise e
         end
     end.
Proof.
  split.
  - apply (preserves_read_file (fun v => v)).
  - unfold read_file, resolve_path, as_path, read_text, try_except, bind, ret,
      raise, reraise, get.
    destruct (fs w !! resolve p) as [[content|]|]; try reflexivity.
    cbv zeta. unfold except_Exception, is_Exception.
    destruct (kind (open_error (resolve p) (fs w))); reflexivity.
Qed.

Lemma web_search_tool : exists tool, lookup_tool "web_search" TOOLS = Some tool.
Proof. eexists. reflexivity. Qed.

Lemma web_fetch_tool : exists tool, lookup_tool "web_fetch" TOOLS = Some tool.
Proof. eexists. reflexivity. Qed.

(** X14. The search service is called with [max_results] clamped into the
    interval from 1 to 10, the other arguments as they were, in every
    permission mode. *)
Theorem web_search_results_clamped (arguments : gmap string pyval) (n : Z)
    (w : World) :
  arguments !! "max_results" = Some (VInt n) ->
  exists m,
    1 <= m <= 10
    /\ (1 <= n <= 10 -> m = n)
    /\ log (snd (execute_tool "web_search" arguments w)) =
       (log w ++ [EvWebSearch (<["max_results" := VInt m]> arguments)])%list.
Proof.
  intros Hmax. exists (Z.max 1 (Z.min 10 n)).
  split; [lia |]. split; [lia |].
  destruct web_search_tool as (tool & Htool).
  assert (Hgate : check_permission "web_search" arguments w = (Ret allowed, w))
    by (apply gate_read_only; cbn; auto).
  rewrite (execute_tool_allowed _ _ _ _ _ Htool Hgate).
  unfold dispatched.
  change (String.eqb "web_search" "web_search") with true. cbv beta iota.
  rewrite Hmax. unfold try_except, bind, as_number, ret, emit, modify, lift.
  destruct (web_search (<["max_results" := VInt (Z.max 1 (Z.min 10 n))]> arguments))
    as [e|hits]; cbn; [|reflexivity].
  destruct (is_Exception e); reflexivity.
Qed.

Lemma take_str_length (n : nat) (s : string) :
  (String.length (PyStr.take_str n s) <= n)%nat.
Proof.
  revert s. induction n as [|n IH]; intros [|c s]; cbn; try lia.
  specialize (IH s). lia.
Qed.

(** X15. What a fetched page hands back is bounded: at most 8000 characters
    of content, the first ones, and at most 20 links. *)
Theorem web_fetch_is_truncated (arguments : gmap string pyval) (w : World)
    (page : FetchedPage) :
  web_fetch arguments = inr page ->
  exists d content links,
    fst (execute_tool "web_fetch" arguments w) = Ret (json_dumps_indent d 2)
    /\ field "content" d = Some (JStr content)
    /\ field "links" d = Some (JList (map JStr links))
    /\ content = PyStr.take_str (Z.to_nat 8000) (page_content page)
    /\ (String.length content <= Z.to_nat 8000)%nat
    /\ links = firstn 20 (page_links page)
    /\ (length links <= 20)%nat.
Proof.
  intros Hpage. destruct web_fetch_tool as (tool & Htool).
  assert (Hgate : check_permission "web_fetch" arguments w = (Ret allowed, w))
    by (apply gate_read_only; cbn; auto).
  rewrite (execute_tool_allowed _ _ _ _ _ Htool Hgate).
  unfold dispatched.
  change (String.eqb "web_fetch" "web_search") with false.
  change (String.eqb "web_fetch" "web_fetch") with true. cbv beta iota.
  unfold try_except, bind, ret, emit, modify, lift. rewrite Hpage.
  do 3 eexists. split; [reflexivity |]. split; [reflexivity |].
  split; [reflexivity |]. split; [reflexivity |].
  split; [|split; [reflexivity |]].
  - etransitivity; [apply take_str_length |].
    lia.
  - rewrite length_firstn. lia.
Qed.

(** X16. A command that runs past its time limit is a reported failure that
    names the clamped limit, not an exception; any other [Exception] of the
    subprocess call is reported with its text. *)
Theorem run_bash_reports_failures (command : string) (timeout : Z)
    (output_lines : pyval) (w : World) (e : exn) (files : gmap string node)
    (answers : list reply) :
  first_match DANGEROUS_PATTERNS command = None ->
  subprocess_run command (clamp_timeout timeout) (fs w) (stdin w) =
    (inl e, files, answers) ->
  is_Exception e = true ->
  fst (run_bash (VStr command) (VInt timeout) output_lines w) =
  Ret (failure
         (match kind e with
          | TimeoutExpired =>
              "Command timed out (" +:+ pretty (clamp_timeout timeout)
                +:+ "s limit)"
          | _ => text e
          end)).
Proof.
  intros Hsafe Hrun He.
  rewrite (run_bash_raised _ _ output_lines _ _ _ _ Hsafe Hrun). cbn [fst].
  rewrite He. destruct (kind e); reflexivity.
Qed.

End ExecutorFacts.

Section LoopFacts.
Context `{R : Runtime}.

Lemma bind_get {C} (f : World -> M C) (w : World) : bind get f w = f w w.
Proof. reflexivity. Qed.

Lemma bind_bind {A C D} (m : M A) (g : A -> M C) (k : C -> M D) (w : World) :
  bind (bind m g) k w = bind m (fun a => bind (g a) k) w.
Proof. unfold bind. now destruct (m w) as [[a|e] w1]. Qed.

(** X17. When the first call of the model in a turn fails, the user message
    is taken back: the history, the files, the input and the counters are
    as they were, and the error is shown. *)
Theorem first_call_failure_rolls_back (fuel : nat) (user_input : string)
    (w : World) (e : exn) :
  chat (messages w ++ [UserMessage user_input]) = inl e ->
  is_Exception e = true ->
  user_turn (S fuel) user_input w =
  (Ret true,
   with_log (log w ++ [EvChat (messages w ++ [UserMessage user_input]);
                       EvModelError e]) w).
Proof.
  intros Hchat He. unfold user_turn. rewrite bind_append_message.
  cbn [agent_loop]. rewrite bind_get, bind_emit.
  cbn [messages with_messages with_log].
  unfold bind at 1. unfold try_except. unfold bind at 1.
  rewrite Hchat. cbn [lift reraise]. rewrite He.
  rewrite bind_emit. unfold pop_message. rewrite bind_bind, bind_get.
  cbn [messages with_messages with_log].
  destruct (messages w ++ [UserMessage user_input])%list eqn:E.
  { now destruct (app_cons_not_nil _ _ _ (eq_sym E)). }
  rewrite <- E. unfold bind, modify, ret.
  cbn [messages with_messages with_log log].
  rewrite removelast_last, <- app_assoc.
  destruct w; reflexivity.
Qed.

(** X18. A response without tool calls ends the turn after one call of the
    model: the history gains the user message and the answer, the counters
    gain the usage of the call, and nothing else changes. *)
Theorem final_answer_ends_turn (fuel : nat) (user_input : string)
    (w : World) (response : ChatResponse) :
  chat (messages w ++ [UserMessage user_input]) = inr response ->
  response_tool_calls response = [] ->
  let '(r, w') := user_turn (S fuel) user_input w in
  r = Ret true
  /\ messages w' =
     (messages w ++
      [UserMessage user_input;
       AssistantMessage (response_content response)
         (response_thinking response) []])%list
  /\ tokens w' =
     (fst (tokens w) + default 0 (prompt_eval_count response),
      snd (tokens w) + default 0 (eval_count response))
  /\ log w' = (log w ++ [EvChat (messages w ++ [UserMessage user_input])])%list
  /\ fs w' = fs w /\ stdin w' = stdin w
  /\ PERMISSION_MODE w' = PERMISSION_MODE w.
Proof.
  intros Hchat Hcalls. unfold user_turn. rewrite bind_append_message.
  cbn [agent_loop]. rewrite bind_get, bind_emit.
  cbn [messages with_messages with_log].
  unfold bind at 1. unfold try_except. unfold bind at 1.
  rewrite Hchat. cbn [lift ret]. rewrite Hcalls.
  unfold tokens_add, append_message, bind, modify, ret. cbn.
  rewrite <- app_assoc. repeat split.
Qed.

(** The loop over the tool calls only appends to the history. *)
Lemma run_tool_calls_history (calls : list tool_call) (w : World) :
  exists rest,
    messages (snd (run_tool_calls calls w)) = (messages w ++ rest)%list.
Proof.
  revert w. induction calls as [|call calls IH]; intros w.
  { exists []. now rewrite app_nil_r. }
  cbn [run_tool_calls]. unfold bind at 1.
  pose proof (preserves_format_tool_call messages (call_name call)
                (call_arguments call) w) as Hline.
  destruct (format_tool_call (call_name call) (call_arguments call) w)
    as [[line|e] w1]; cbn [snd] in Hline;
    [|exists []; now rewrite app_nil_r].
  rewrite bind_emit. unfold bind at 1.
  pose proof (preserves_execute_tool messages
                ltac:(reflexivity) ltac:(reflexivity) ltac:(reflexivity)
                (call_name call) (call_arguments call)
                (with_log (log w1 ++ [EvToolCall line]) w1)) as Hrun.
  destruct (execute_tool (call_name call) (call_arguments call) _)
    as [[result|e] w2]; cbn [snd messages with_log] in Hrun;
    [|exists []; rewrite app_nil_r; cbn; congruence].
  rewrite bind_append_message.
  destruct (IH (with_messages
                  (messages w2 ++ [ToolMessage (call_name call) result]) w2))
    as (rest & Hrest).
  rewrite Hrest. cbn [messages with_messages].
  rewrite Hrun, Hline, <- app_assoc. eauto.
Qed.

(** The inner loop never reaches below the message that opened the turn. *)
Lemma agent_loop_prefix (fuel : nat) :
  forall (base more : list message) (x : message) (w : World),
    messages w = (base ++ x :: more)%list ->
    exists rest, messages (snd (agent_loop fuel w)) = (base ++ rest)%list.
Proof.
  induction fuel as [|fuel IH]; intros base more x w Hw.
  { exists (x :: more). exact Hw. }
  cbn [agent_loop]. rewrite bind_get, bind_emit.
  unfold bind at 1. unfold try_except. unfold bind at 1.
  cbn [messages with_log].
  destruct (chat (messages w)) as [e|response]; cbn [lift reraise ret].
  - destruct (is_Exception e); [|exists (x :: more); exact Hw].
    rewrite bind_emit. unfold pop_message. rewrite bind_bind, bind_get.
    cbn [messages with_log]. rewrite Hw.
    destruct (base ++ x :: more)%list eqn:E.
    { now destruct (app_cons_not_nil _ _ _ (eq_sym E)). }
    rewrite <- E. unfold bind, modify, ret.
    cbn [snd messages with_messages with_log].
    rewrite Hw, <- E, removelast_app by discriminate. eauto.
  - unfold tokens_add. unfold bind at 1. unfold modify at 1.
    rewrite bind_append_message.
    cbn [messages with_log with_tokens].
    destruct (response_tool_calls response) as [|call calls] eqn:Hcalls.
    + cbn. rewrite Hw, <- app_assoc. eauto.
    + unfold bind.
      match goal with
      | |- context [run_tool_calls ?cs ?v] =>
          destruct (run_tool_calls_history cs v) as (rest & Hrest);
          destruct (run_tool_calls cs v) as [[[]|e] w3]
      end; cbn [snd messages with_messages with_log with_tokens] in Hrest.
      * rewrite Hw, <- !app_assoc in Hrest. cbn [app] in Hrest.
        exact (IH _ _ _ _ Hrest).
      * cbn [snd]. rewrite Hrest, Hw, <- !app_assoc. eauto.
Qed.

(** X19. A turn never loses or alters what was in the history before it:
    whatever the model, the tools and the user do, the earlier messages
    stay, in order, at the front. *)
Theorem turn_keeps_earlier_history (fuel : nat) (user_input : string)
    (w : World) :
  exists rest,
    messages (snd (user_turn fuel user_input w)) = (messages w ++ rest)%list.
Proof.
  unfold user_turn. rewrite bind_append_message.
  apply (agent_loop_prefix fuel (messages w) [] (UserMessage user_input)).
  reflexivity.
Qed.

End LoopFacts.

Section ShapingFacts.

Lemma one_line_app (a b : string) :
  one_line (a +:+ b) = one_line a && one_line b.
Proof.
  induction a as [|c a IH]; [reflexivity |].
  rewrite app_String. cbn [one_line]. now rewrite IH, andb_assoc.
Qed.

Lemma one_line_digit (d : N) (s : string) :
  one_line (String (pretty_N_char d) s) = one_line s.
Proof.
  unfold pretty_N_char. repeat case_match; reflexivity.
Qed.

Lemma one_line_pretty_go (x : N) :
  forall s, one_line s = true -> one_line (pretty_N_go x s) = true.
Proof.
  induction (N.lt_wf_0 x) as [x _ IH]. intros s Hs.
  destruct (decide (x = 0)%N) as [->|Hx]; [exact Hs |].
  rewrite pretty_N_go_step by lia.
  apply IH; [apply N.div_lt; lia |]. now rewrite one_line_digit.
Qed.

Lemma one_line_pretty (n : nat) : one_line (pretty n) = true.
Proof.
  unfold pretty, pretty_nat, pretty, pretty_N.
  destruct (decide (N.of_nat n = 0)%N); [reflexivity |].
  now apply one_line_pretty_go.
Qed.

(** The pieces of a split have no newline, and there is at least one. *)
Lemma split_pieces (s : string) :
  forallb one_line (PyStr.split_nl s) = true /\ PyStr.split_nl s <> [].
Proof.
  induction s as [|c s [IH1 IH2]]; [split; [reflexivity | discriminate] |].
  cbn [PyStr.split_nl].
  destruct (Ascii.eqb c PyStr.nl) eqn:E; [split; [exact IH1 | discriminate] |].
  destruct (PyStr.split_nl s) as [|h t]; [now destruct IH2 |].
  split; [|discriminate]. cbn [forallb one_line] in *. now rewrite E.
Qed.

Lemma join_cons (l l' : string) (ls : list string) :
  PyStr.join_nl (l :: l' :: ls) = l +:+ PyStr.nl_str +:+ PyStr.join_nl (l' :: ls).
Proof. reflexivity. Qed.

Lemma join_app (a b : list string) :
  a <> [] -> b <> [] ->
  PyStr.join_nl (a ++ b) = PyStr.join_nl a +:+ PyStr.nl_str +:+ PyStr.join_nl b.
Proof.
  intros Ha Hb. induction a as [|x a IH]; [congruence |].
  destruct a as [|y a].
  - destruct b as [|z b]; [congruence |]. reflexivity.
  - change ((x :: y :: a) ++ b)%list with (x :: y :: (a ++ b))%list.
    rewrite !join_cons.
    change (y :: (a ++ b))%list with ((y :: a) ++ b)%list.
    rewrite IH by discriminate. now rewrite !app_assoc_str.
Qed.

Lemma split_join_list (ls : list string) :
  ls <> [] -> forallb one_line ls = true ->
  PyStr.split_nl (PyStr.join_nl ls) = ls.
Proof. destruct ls as [|l ls]; [congruence | intros _; apply split_join]. Qed.

(** X20. Shaping leaves an output within the limit as it is, and cuts a
    longer one down to at most the limit plus one piece (the marker) in each
    of the three cutting modes. *)
Theorem truncate_output_bounded (output_lines text : string) (max_lines : nat) :
  (2 <= max_lines)%nat ->
  output_lines <> "all" ->
  ((length (PyStr.split_nl text) <= max_lines)%nat ->
   truncate_output output_lines text max_lines = text)
  /\ (length (PyStr.split_nl (truncate_output output_lines text max_lines))
      <= max_lines + 1)%nat.
Proof.
  intros Hmax Hmode. unfold truncate_output.
  destruct (split_pieces text) as [Hone Hne].
  set (lines := PyStr.split_nl text) in *.
  destruct (Nat.leb_spec (length lines) max_lines) as [Hle|Hgt]; cbn [orb].
  { split; [reflexivity |]. fold lines. lia. }
  destruct (String.eqb_spec output_lines "all") as [|_]; [congruence |].
  split; [lia |].
  assert (Hhalf : (1 <= max_lines / 2)%nat)
    by (apply Nat.div_le_lower_bound; lia).
  assert (Hhalf2 : (2 * (max_lines / 2) <= max_lines)%nat)
    by (apply Nat.Div0.mul_div_le).
  assert (Hfirst : forall n, (1 <= n <= length lines)%nat ->
             firstn n lines <> [] /\ length (firstn n lines) = n
             /\ forallb one_line (firstn n lines) = true).
  { intros n Hn. split; [|split].
    - intros E. apply (f_equal (@length string)) in E.
      rewrite length_firstn in E. cbn in E. lia.
    - rewrite length_firstn. lia.
    - apply forallb_forall. intros x Hx.
      apply (proj1 (forallb_forall one_line lines) Hone).
      rewrite <- (firstn_skipn n lines). apply in_or_app. now left. }
  assert (Hlast : forall n, (1 <= n <= length lines)%nat ->
             PyStr.tail_slice n lines <> []
             /\ length (PyStr.tail_slice n lines) = n
             /\ forallb one_line (PyStr.tail_slice n lines) = true).
  { intros n Hn. unfold PyStr.tail_slice. destruct n as [|n]; [lia |].
    split; [|split].
    - intros E. apply (f_equal (@length string)) in E.
      rewrite length_skipn in E. cbn in E. lia.
    - rewrite length_skipn. lia.
    - apply forallb_forall. intros x Hx.
      apply (proj1 (forallb_forall one_line lines) Hone).
      rewrite <- (firstn_skipn (length lines - S n) lines).
      apply in_or_app. now right. }
  unfold PyStr.head_slice.
  destruct (String.eqb output_lines "first");
    [|destruct (String.eqb output_lines "last")]; cbv zeta.
  - destruct (Hfirst max_lines) as (Hn & Hl & Ho); [lia |].
    set (marker := "... (" +:+ pretty (length lines - max_lines)%nat
                     +:+ " more lines)").
    replace (PyStr.join_nl (firstn max_lines lines) +:+ PyStr.nl_str +:+ marker)
      with (PyStr.join_nl (firstn max_lines lines ++ [marker]))
      by (now rewrite join_app by (assumption || discriminate)).
    rewrite split_join_list.
    + rewrite length_app, Hl. cbn. lia.
    + now destruct (firstn max_lines lines).
    + rewrite forallb_app, Ho. cbn. unfold marker.
      now rewrite !one_line_app, one_line_pretty.
  - destruct (Hlast max_lines) as (Hn & Hl & Ho); [lia |].
    set (marker := "... (" +:+ pretty (length lines - max_lines)%nat
                     +:+ " lines omitted)").
    replace ("... (" +:+ pretty (length lines - max_lines)%nat
             +:+ " lines omitted)" +:+ PyStr.nl_str
             +:+ PyStr.join_nl (PyStr.tail_slice max_lines lines))
      with (PyStr.join_nl ([marker] ++ PyStr.tail_slice max_lines lines)).
    2: { rewrite join_app by (assumption || discriminate).
         unfold marker. cbn [PyStr.join_nl String.concat].
         now rewrite !app_assoc_str. }
    rewrite split_join_list.
    + rewrite length_app, Hl. cbn. lia.
    + discriminate.
    + rewrite forallb_app, Ho. cbn. unfold marker.
      now rewrite !one_line_app, one_line_pretty.
  - destruct (Hfirst (max_lines / 2)%nat) as (Hn & Hl & Ho); [lia |].
    destruct (Hlast (max_lines / 2)%nat) as (Hn' & Hl' & Ho'); [lia |].
    set (marker := "... (" +:+ pretty (length lines - max_lines)%nat
                     +:+ " lines omitted) ...").
    replace (PyStr.join_nl (firstn (max_lines / 2) lines) +:+ PyStr.nl_str
             +:+ "... (" +:+ pretty (length lines - max_lines)%nat
             +:+ " lines omitted) ..." +:+ PyStr.nl_str
             +:+ PyStr.join_nl (PyStr.tail_slice (max_lines / 2) lines))
      with (PyStr.join_nl (firstn (max_lines / 2) lines
                           ++ ([marker] ++ PyStr.tail_slice (max_lines / 2) lines))).
    2: { rewrite join_app by (assumption || discriminate).
         rewrite join_app by (assumption || discriminate).
         unfold marker. cbn [PyStr.join_nl String.concat].
         now rewrite !app_assoc_str. }
    rewrite split_join_list.
    + rewrite !length_app, Hl, Hl'. cbn [length]. lia.
    + now destruct (firstn (max_lines / 2) lines).
    + rewrite !forallb_app, Ho, Ho'. cbn. unfold marker.
      now rewrite !one_line_app, one_line_pretty.
Qed.

End ShapingFacts.

Section BlocklistFacts.
Import Re.

Lemma chars_app (a b : string) :
  list_ascii_of_string (a +:+ b) =
  (list_ascii_of_string a ++ list_ascii_of_string b)%list.
Proof.
  induction a as [|c a IH]; [reflexivity |].
  rewrite app_String. cbn. now rewrite IH.
Qed.

(** A pattern that matches at the start of [rest], whatever stands before,
    is found in every text that ends with [rest]. *)
Lemma search_from_suffix (r : regex) (rest : list ascii) :
  (forall prev, rmatch r (prev, rest) (fun _ => true) = true) ->
  forall (before : list ascii) (prev : option ascii),
    search_from r prev (before ++ rest) = true.
Proof.
  intros Hhere. induction before as [|c before IH]; intros prev.
  - cbn [app]. destruct rest as [|x rest];
      cbn [search_from]; now rewrite Hhere.
  - cbn [app search_from].
    destruct (rmatch r (prev, c :: (before ++ rest)%list) (fun _ => true));
      [reflexivity | apply IH].
Qed.

Lemma search_contains (r : regex) (fragment : string) :
  (forall after prev,
      rmatch r (prev, list_ascii_of_string (fragment +:+ after))
        (fun _ => true) = true) ->
  forall before after, search r (before +:+ fragment +:+ after) = true.
Proof.
  intros Hhere before after. unfold search. rewrite chars_app.
  apply search_from_suffix. intros prev. apply Hhere.
Qed.

Lemma first_match_found (table : list (regex * string)) (command : string)
    (r : regex) (why : string) :
  In (r, why) table -> search r command = true ->
  exists explanation, first_match table command = Some explanation.
Proof.
  induction table as [|[r' why'] table IH]; intros Hin Hfound; [destruct Hin |].
  cbn [first_match]. destruct (search r' command) eqn:E; [eauto |].
  destruct Hin as [[= -> ->] | Hin]; [congruence | now apply IH].
Qed.

Ltac found_by n :=
  eapply first_match_found;
  [ eapply (nth_error_In _ n); reflexivity
  | apply search_contains; intros ? ?;
    first [ reflexivity
          | rewrite chars_app; cbn; rewrite ?Nat.leb_refl; reflexivity ] ].

(** X21. A command that contains one of the texts of [dangerous_fragments],
    anywhere and whatever surrounds it, is reported dangerous. *)
Theorem fragments_are_dangerous (fragment before after : string) (w : World)
    `{R : Runtime} :
  In fragment dangerous_fragments ->
  exists explanation,
    check_dangerous_command (VStr (before +:+ fragment +:+ after)) w =
    (Ret (true, explanation), w).
Proof.
  intros Hin.
  assert (exists explanation,
             first_match DANGEROUS_PATTERNS (before +:+ fragment +:+ after) =
             Some explanation) as (explanation & Hfound).
  { cbn in Hin.
    destruct Hin as [<-|[<-|[<-|[<-|[<-|[<-|[<-|[<-|[]]]]]]]]].
    - found_by 0%nat.
    - found_by 2%nat.
    - found_by 3%nat.
    - found_by 17%nat.
    - found_by 18%nat.
    - found_by 19%nat.
    - found_by 21%nat.
    - found_by 22%nat. }
  exists explanation. unfold check_dangerous_command. now rewrite Hfound.
Qed.

End BlocklistFacts.

Section CaseFacts.
Import Re.

Ltac by_cases x := destruct x as [[] [] [] [] [] [] [] []]; reflexivity.

Lemma lower_lower (x : ascii) :
  PyStr.lower_char (PyStr.lower_char x) = PyStr.lower_char x.
Proof. by_cases x. Qed.

Lemma lower_is_space (x : ascii) :
  PyStr.is_space (PyStr.lower_char x) = PyStr.is_space x.
Proof. by_cases x. Qed.

Lemma lower_is_word (x : ascii) : is_word (PyStr.lower_char x) = is_word x.
Proof. by_cases x. Qed.

Lemma lower_is_nl (x : ascii) :
  Ascii.eqb (PyStr.lower_char x) PyStr.nl = Ascii.eqb x PyStr.nl.
Proof. by_cases x. Qed.

Lemma lower_cases (x : ascii) :
  PyStr.lower_char x = x
  \/ (PyStr.upper_char (PyStr.lower_char x) = x /\ PyStr.upper_char x = x).
Proof.
  destruct x as [[] [] [] [] [] [] [] []];
    first [left; reflexivity | right; split; reflexivity].
Qed.

Lemma lower_in_class (ranges : list (ascii * ascii)) (x : ascii) :
  in_class ranges (PyStr.lower_char x) = in_class ranges x.
Proof.
  unfold in_class. induction ranges as [|r ranges IH]; [reflexivity |].
  cbn [existsb]. rewrite IH. f_equal. rewrite lower_lower.
  destruct (lower_cases x) as [E | [E1 E2]].
  - now rewrite E.
  - rewrite E1, E2.
    destruct (in_range x r), (in_range (PyStr.lower_char x) r); reflexivity.
Qed.

Lemma lower_lit_eq (c x : ascii) : lit_eq c (PyStr.lower_char x) = lit_eq c x.
Proof. unfold lit_eq. now rewrite lower_lower. Qed.

Lemma step_char_lowered (ok : ascii -> bool) (p : cursor)
    (k k' : cursor -> bool) :
  (forall x, ok (PyStr.lower_char x) = ok x) ->
  (forall q, k q = k' (lowered q)) ->
  step_char ok p k = step_char ok (lowered p) k'.
Proof.
  intros Hok Hk. unfold step_char. destruct p as [prev [|x t]]; [reflexivity |].
  cbn [snd lowered map]. rewrite Hok. now rewrite (Hk (Some x, t)).
Qed.

Lemma lowered_length (p : cursor) :
  length (snd (lowered p)) = length (snd p).
Proof. apply length_map. Qed.

(** Matching does not see the case of the subject. *)
Lemma rmatch_lowered (r : regex) :
  forall (p : cursor) (k k' : cursor -> bool),
    (forall q, k q = k' (lowered q)) ->
    rmatch r p k = rmatch r (lowered p) k'.
Proof.
  induction r as [| c | | | ranges | | | r1 IH1 r2 IH2 | r1 IH1 r2 IH2 | r1 IH1];
    intros p k k' Hk; cbn [rmatch].
  - apply Hk.
  - apply step_char_lowered; [apply lower_lit_eq | exact Hk].
  - apply step_char_lowered; [|exact Hk].
    intros x. now rewrite lower_is_nl.
  - apply step_char_lowered; [apply lower_is_space | exact Hk].
  - apply step_char_lowered; [apply lower_in_class | exact Hk].
  - replace (word_before (lowered p)) with (word_before p)
      by (destruct p as [[x|] t]; cbn; now rewrite ?lower_is_word).
    replace (word_after (lowered p)) with (word_after p)
      by (destruct p as [prev [|x t]]; cbn; now rewrite ?lower_is_word).
    now rewrite (Hk p).
  - replace (at_end (lowered p)) with (at_end p)
      by (destruct p as [prev [|x [|y t]]]; cbn; now rewrite ?lower_is_nl).
    now rewrite (Hk p).
  - apply IH1. intros q. now apply IH2.
  - now rewrite (IH1 p k k' Hk), (IH2 p k k' Hk).
  - rewrite lowered_length. generalize (length (snd p)) as n.
    intros n. revert p. induction n as [|n IHn]; intros p.
    + now rewrite (Hk p).
    + rewrite (Hk p). destruct (k' (lowered p)); [reflexivity |].
      apply IH1. intros q. rewrite !lowered_length.
      destruct (length (snd q) <? length (snd p))%nat; [apply IHn | reflexivity].
Qed.

Lemma search_from_lowered (r : regex) (s : list ascii) :
  forall prev,
    search_from r prev s =
    search_from r (option_map PyStr.lower_char prev) (map PyStr.lower_char s).
Proof.
  induction s as [|x s IH]; intros prev; cbn [search_from map].
  - rewrite (rmatch_lowered r (prev, []) (fun _ => true) (fun _ => true))
      by (intros; reflexivity).
    reflexivity.
  - rewrite (rmatch_lowered r (prev, x :: s) (fun _ => true) (fun _ => true))
      by (intros; reflexivity).
    cbn [lowered fst snd map]. now rewrite (IH (Some x)).
Qed.

Lemma chars_lower (s : string) :
  list_ascii_of_string (PyStr.lower s) =
  map PyStr.lower_char (list_ascii_of_string s).
Proof. induction s as [|c s IH]; cbn; [reflexivity | now rewrite IH]. Qed.

Lemma search_lower (r : regex) (s : string) :
  search r (PyStr.lower s) = search r s.
Proof.
  unfold search. rewrite chars_lower. symmetry.
  apply (search_from_lowered r _ None).
Qed.

Lemma first_match_lower (table : list (regex * string)) (command : string) :
  first_match table (PyStr.lower command) = first_match table command.
Proof.
  induction table as [|[r why] table IH]; [reflexivity |].
  cbn [first_match]. now rewrite search_lower, IH.
Qed.

(** X22. The blocklist does not see the case of a command: two commands that
    differ only in the case of their letters get the same verdict and the
    same explanation. *)
Theorem blocklist_ignores_case (c1 c2 : string) :
  PyStr.lower c1 = PyStr.lower c2 ->
  first_match DANGEROUS_PATTERNS c1 = first_match DANGEROUS_PATTERNS c2.
Proof.
  intros H.
  now rewrite <- (first_match_lower _ c1), <- (first_match_lower _ c2), H.
Qed.

End CaseFacts.

Section SessionLoopFacts.
Context `{R : Runtime}.

(** One round on a line that is a slash command. *)
Lemma repl_step_slash (fuel : nat) (MODEL line cmd : string)
    (rest : list reply) (w : World) :
  stdin w = Line line :: rest ->
  slash_command line = Some cmd ->
  repl_step fuel MODEL w =
  (if String.eqb cmd "/help" then ret (Continue, MODEL)
   else if String.eqb cmd "/mode" then
     w <- get ;;
     match PERMISSION_MODE w with
     | DEFAULT => modify (with_mode ACCEPT_EDITS)
     | ACCEPT_EDITS => modify (with_mode YOLO)
     | YOLO => modify (with_mode DEFAULT)
     end ;;;
     ret (Continue, MODEL)
   else if String.eqb cmd "/model" then
     let name := second_part (PyStr.strip line) in
     if String.eqb name "" then ret (Continue, MODEL)
     else ret (Continue, PyStr.strip name)
   else if String.eqb cmd "/clear" then
     modify (fun w => with_tokens (0, 0) (with_messages [] w)) ;;;
     ret (Continue, MODEL)
   else if String.eqb cmd "/tokens" then ret (Continue, MODEL)
   else if existsb (String.eqb cmd) ["/quit"; "/exit"] then ret (Break, MODEL)
   else ret (Continue, MODEL)) (with_stdin rest w).
Proof.
  intros Hin Hcmd. unfold repl_step, input, try_except.
  unfold bind at 1. unfold bind at 1. rewrite Hin. unfold ret at 1.
  cbv beta iota. unfold slash_command in Hcmd. cbv zeta in Hcmd.
  destruct (String.eqb (PyStr.strip line) ""); [discriminate |].
  destruct (String.prefix "/" (PyStr.strip line)); [|discriminate].
  injection Hcmd as ->. reflexivity.
Qed.

(** X23. The [/mode] command, in any case and with anything after the word,
    moves the permission mode one step round the cycle default,
    accept-edits, yolo, and changes nothing else; three of them bring the
    mode back. *)
Theorem mode_command_cycles (fuel : nat) (MODEL line : string)
    (rest : list reply) (w : World) :
  stdin w = Line line :: rest ->
  slash_command line = Some "/mode" ->
  repl_step fuel MODEL w =
    (Ret (Continue, MODEL),
     with_mode (next_mode (PERMISSION_MODE w)) (with_stdin rest w))
  /\ next_mode (next_mode (next_mode (PERMISSION_MODE w))) = PERMISSION_MODE w.
Proof.
  intros Hin Hcmd. rewrite (repl_step_slash _ _ _ _ _ _ Hin Hcmd).
  split; [|now destruct (PERMISSION_MODE w)].
  change (String.eqb "/mode" "/help") with false.
  change (String.eqb "/mode" "/mode") with true. cbv beta iota.
  unfold bind, get, modify, ret. cbn [PERMISSION_MODE with_stdin].
  now destruct (PERMISSION_MODE w).
Qed.

(** X24. The [/clear] command empties the history and sets both counters to
    zero; the permission mode, the files and the log stay. *)
Theorem clear_command_resets_history (fuel : nat) (MODEL line : string)
    (rest : list reply) (w : World) :
  stdin w = Line line :: rest ->
  slash_command line = Some "/clear" ->
  repl_step fuel MODEL w =
  (Ret (Continue, MODEL),
   with_tokens (0, 0) (with_messages [] (with_stdin rest w))).
Proof.
  intros Hin Hcmd. now rewrite (repl_step_slash _ _ _ _ _ _ Hin Hcmd).
Qed.

(** X25. A blank line, and a slash command that is none of [/mode],
    [/model], [/clear], [/quit] and [/exit] (so [/help], [/tokens] and every
    unknown command), change nothing: the line is used up and the loop goes
    on with the same model. *)
Theorem other_lines_change_nothing (fuel : nat) (MODEL line : string)
    (rest : list reply) (w : World) :
  stdin w = Line line :: rest ->
  PyStr.strip line = ""
  \/ (exists cmd, slash_command line = Some cmd /\ ~ In cmd acting_commands) ->
  repl_step fuel MODEL w = (Ret (Continue, MODEL), with_stdin rest w).
Proof.
  intros Hin [Hblank | (cmd & Hcmd & Hother)].
  - unfold repl_step, input, try_except.
    unfold bind at 1. unfold bind at 1. rewrite Hin. unfold ret at 1.
    cbv beta iota. now rewrite Hblank.
  - rewrite (repl_step_slash _ _ _ _ _ _ Hin Hcmd).
    assert (Hne : forall known, In known acting_commands ->
                                String.eqb cmd known = false).
    { intros known Hk. apply String.eqb_neq. intros ->. now apply Hother. }
    rewrite (Hne "/mode"), (Hne "/model"), (Hne "/clear") by (cbn; auto).
    cbn [existsb].
    rewrite (Hne "/quit"), (Hne "/exit") by (cbn; auto 6).
    now destruct (String.eqb cmd "/help"), (String.eqb cmd "/tokens").
Qed.

(** X26. The loop is left, with nothing changed, at the end of the input, on
    Ctrl-C, and on the words quit and exit with or without the slash, in
    any case. *)
Theorem leaving_the_session (fuel : nat) (MODEL : string) (w : World) :
  match stdin w with
  | [] | CtrlC :: _ | EndOfInput :: _ => True
  | Line line :: _ =>
      slash_command line = Some "/quit" \/ slash_command line = Some "/exit"
      \/ PyStr.lower (PyStr.strip line) = "quit"
      \/ PyStr.lower (PyStr.strip line) = "exit"
  end ->
  repl_step fuel MODEL w = (Ret (Break, MODEL), with_stdin (tl (stdin w)) w).
Proof.
  destruct (stdin w) as [|[line| |] rest] eqn:Hin; intros H.
  - unfold repl_step, input, try_except, bind. rewrite Hin. cbn.
    destruct w; cbn in *; now subst.
  - destruct H as [H | [H | [H | H]]].
    + now rewrite (repl_step_slash _ _ _ _ _ _ Hin H).
    + now rewrite (repl_step_slash _ _ _ _ _ _ Hin H).
    + unfold repl_step, input, try_except.
      unfold bind at 1. unfold bind at 1. rewrite Hin. unfold ret at 1.
      cbv beta iota. rewrite H.
      destruct (PyStr.strip line) as [|c s]; [discriminate |].
      cbn [String.eqb].
      destruct (String.prefix "/" (String c s)) eqn:P; [|reflexivity].
      destruct c as [[] [] [] [] [] [] [] []]; cbn in P; try discriminate;
        cbn in H; discriminate.
    + unfold repl_step, input, try_except.
      unfold bind at 1. unfold bind at 1. rewrite Hin. unfold ret at 1.
      cbv beta iota. rewrite H.
      destruct (PyStr.strip line) as [|c s]; [discriminate |].
      cbn [String.eqb].
      destruct (String.prefix "/" (String c s)) eqn:P; [|reflexivity].
      destruct c as [[] [] [] [] [] [] [] []]; cbn in P; try discriminate;
        cbn in H; discriminate.
  - unfold repl_step, input, try_except, bind. rewrite Hin. reflexivity.
  - unfold repl_step, input, try_except, bind. rewrite Hin. reflexivity.
Qed.

End SessionLoopFacts.

(** ** The properties above at concrete inputs *)

Section MoreExamples.
Import Demo.

Lemma read_only_tools_never_ask_witness :
  let w := world DEFAULT notes [Line "n"] in
  let w' := snd (execute_tool "read_file" (call_arguments read_notes) w) in
  In "read_file" read_only_tools
  /\ fs w' = fs w
  /\ stdin w' = stdin w
  /\ exists evs, log w' = (log w ++ evs)%list /\ List.Forall not_prompt evs.
Proof.
  intros w w'.
  assert (H : In "read_file" read_only_tools) by (cbn; auto).
  split; [exact H |].
  exact (read_only_tools_never_ask "read_file" (call_arguments read_notes) w H).
Defined.

Lemma yolo_never_asks_witness :
  let w := world YOLO ∅ [Line "n"] in
  PERMISSION_MODE w = YOLO
  /\ exists evs,
      log (snd (execute_tool "write_file" small_write w)) =
        (log w ++ evs)%list
      /\ List.Forall not_prompt evs.
Proof.
  intros w. split; [reflexivity |].
  exact (yolo_never_asks "write_file" small_write w eq_refl).
Defined.

Lemma only_run_bash_starts_processes_witness :
  let w := world DEFAULT notes [Line "y"] in
  "edit_file" <> "run_bash"
  /\ exists evs,
      log (snd (execute_tool "edit_file" bad_edit w)) = (log w ++ evs)%list
      /\ List.Forall not_shell evs.
Proof.
  intros w.
  assert (H : "edit_file" <> "run_bash") by discriminate.
  split; [exact H |].
  exact (only_run_bash_starts_processes "edit_file" bad_edit w H).
Defined.

Lemma root_wipe_keys (k : string) :
  is_Some (root_wipe !! k) -> In k run_bash_parameters.
Proof.
  intros [v Hk]. unfold root_wipe in Hk.
  apply lookup_singleton_Some in Hk as [<- _]. cbn. auto.
Qed.



Lemma dangerous_command_never_runs_witness :
  let w := world DEFAULT ∅ [Line "y"] in
  root_wipe !! "command" = Some (VStr "rm -rf /")
  /\ first_match DANGEROUS_PATTERNS "rm -rf /" = Some root_wipe_reason
  /\ let '(r, w') := execute_tool "run_bash" root_wipe w in
     (exists d, r = Ret d)
     /\ fs w' = fs w
     /\ exists evs, log w' = (log w ++ evs)%list /\ List.Forall not_shell evs.
Proof.
  intros w.
  assert (H1 : root_wipe !! "command" = Some (VStr "rm -rf /"))
    by (vm_compute; reflexivity).
  assert (H2 : first_match DANGEROUS_PATTERNS "rm -rf /" = Some root_wipe_reason)
    by (vm_compute; reflexivity).
  split; [exact H1 |]. split; [exact H2 |].
  exact (dangerous_command_never_runs root_wipe "rm -rf /" root_wipe_reason w
           H1 H2).
Defined.

Lemma dangerous_command_blocked_witness :
  let w := world YOLO ∅ [] in
  root_wipe !! "command" = Some (VStr "rm -rf /")
  /\ first_match DANGEROUS_PATTERNS "rm -rf /" = Some root_wipe_reason
  /\ fst (execute_tool "run_bash" root_wipe w) =
     Ret (json_dumps_indent (blocked_result "rm -rf /" root_wipe_reason) 2).
Proof.
  intros w.
  assert (H1 : root_wipe !! "command" = Some (VStr "rm -rf /"))
    by (vm_compute; reflexivity).
  assert (H2 : first_match DANGEROUS_PATTERNS "rm -rf /" = Some root_wipe_reason)
    by (vm_compute; reflexivity).
  split; [exact H1 |]. split; [exact H2 |].
  exact (dangerous_command_blocked root_wipe "rm -rf /" root_wipe_reason w
           H1 root_wipe_keys H2 (or_introl eq_refl)).
Defined.

Lemma declined_command_witness :
  let w := world ACCEPT_EDITS ∅ [Line "no"] in
  PERMISSION_MODE w <> YOLO
  /\ approves (stdin w) = false
  /\ execute_tool "run_bash" root_wipe w =
     (Ret (json_dumps [("success", JBool false);
                       ("error", JStr "User declined to run command")]),
      after_prompt "Run command"
        (py_str (get_arg root_wipe "command" (VStr "?"))) w).
Proof.
  intros w.
  assert (H1 : PERMISSION_MODE w <> YOLO) by discriminate.
  assert (H2 : approves (stdin w) = false) by reflexivity.
  split; [exact H1 |]. split; [exact H2 |].
  exact (declined_command root_wipe w H1 H2).
Defined.

Lemma no_exception_escapes_unprompted_witness :
  let w := world YOLO ∅ [] in
  PERMISSION_MODE w = YOLO
  /\ match fst (execute_tool "edit_file" bad_edit w) with
     | Ret _ => True
     | Raise e => is_Exception e = false
     end.
Proof.
  intros w. split; [reflexivity |].
  exact (no_exception_escapes_unprompted "edit_file" bad_edit w
           (or_intror eq_refl)).
Defined.




Lemma read_file_is_safe_witness :
  let w := world DEFAULT notes [] in
  snd (read_file (VStr "notes.txt") w) = w
  /\ fst (read_file (VStr "notes.txt") w) =
     Ret (read_result "/work/notes.txt" "remember the milk")
  /\ fst (read_file (VStr "notes.txt/x") w) = Ret (failure "Not a directory")
  /\ fst (read_file (VStr "shopping.txt") w) =
     Ret (failure "File not found: shopping.txt").
Proof.
  intros w.
  split; [exact (proj1 (read_file_is_safe (VStr "notes.txt") "notes.txt" w)) |].
  split; [exact (proj2 (read_file_is_safe VNone "notes.txt" w)) |].
  split; [exact (proj2 (read_file_is_safe VNone "notes.txt/x" w)) |].
  exact (proj2 (read_file_is_safe VNone "shopping.txt" w)).
Defined.

Lemma web_search_results_clamped_witness :
  let w := world DEFAULT ∅ [] in
  let arguments : gmap string pyval :=
    <["query" := VStr "rocq"]> (<["max_results" := VInt 50]> ∅) in
  arguments !! "max_results" = Some (VInt 50)
  /\ exists m,
      1 <= m <= 10
      /\ (1 <= 50 <= 10 -> m = 50)
      /\ log (snd (execute_tool "web_search" arguments w)) =
         (log w ++ [EvWebSearch (<["max_results" := VInt m]> arguments)])%list.
Proof.
  intros w arguments.
  assert (H : arguments !! "max_results" = Some (VInt 50))
    by (vm_compute; reflexivity).
  split; [exact H |].
  exact (web_search_results_clamped arguments 50 w H).
Defined.

Lemma web_fetch_is_truncated_witness :
  let w := world DEFAULT ∅ [] in
  let arguments : gmap string pyval := <["url" := VStr "https://example.com"]> ∅ in
  @web_fetch Online.online_runtime arguments = inr Online.page
  /\ exists d content links,
      fst (@execute_tool Online.online_runtime "web_fetch" arguments w) =
        Ret (json_dumps_indent d 2)
      /\ field "content" d = Some (JStr content)
      /\ field "links" d = Some (JList (map JStr links))
      /\ content = PyStr.take_str (Z.to_nat 8000) (page_content Online.page)
      /\ (String.length content <= Z.to_nat 8000)%nat
      /\ links = firstn 20 (page_links Online.page)
      /\ (length links <= 20)%nat.
Proof.
  intros w arguments. split; [reflexivity |].
  exact (@web_fetch_is_truncated Online.online_runtime arguments w Online.page
           eq_refl).
Defined.

Lemma run_bash_reports_failures_witness :
  let w := world YOLO ∅ [] in
  let e := Exn TimeoutExpired "timed out" in
  first_match DANGEROUS_PATTERNS "sleep 1000" = None
  /\ @subprocess_run Online.online_runtime "sleep 1000" (clamp_timeout 5)
       (fs w) (stdin w) =
     (inl e, fs w, stdin w)
  /\ is_Exception e = true
  /\ fst (@run_bash Online.online_runtime (VStr "sleep 1000") (VInt 5)
            (VStr "both") w) =
     Ret (failure ("Command timed out (" +:+ pretty (clamp_timeout 5)
                   +:+ "s limit)")).
Proof.
  intros w e.
  assert (H : first_match DANGEROUS_PATTERNS "sleep 1000" = None)
    by (vm_compute; reflexivity).
  split; [exact H |]. split; [reflexivity |]. split; [reflexivity |].
  exact (@run_bash_reports_failures Online.online_runtime "sleep 1000" 5
           (VStr "both") w e (fs w) (stdin w) H eq_refl eq_refl).
Defined.

Lemma first_call_failure_rolls_back_witness :
  let w := with_messages [UserMessage "earlier"] (world DEFAULT ∅ []) in
  let e := Exn ConnectionError "connection refused" in
  chat (messages w ++ [UserMessage "hello"]) = inl e
  /\ is_Exception e = true
  /\ user_turn 3 "hello" w =
     (Ret true,
      with_log (log w ++ [EvChat (messages w ++ [UserMessage "hello"]);
                          EvModelError e]) w).
Proof.
  intros w e. split; [reflexivity |]. split; [reflexivity |].
  exact (first_call_failure_rolls_back 2 "hello" w e eq_refl eq_refl).
Defined.

Lemma final_answer_ends_turn_witness :
  let w := world DEFAULT ∅ [] in
  @chat Online.online_runtime (messages w ++ [UserMessage "hello"]) =
    inr Online.answer
  /\ response_tool_calls Online.answer = []
  /\ let '(r, w') := @user_turn Online.online_runtime 1 "hello" w in
     r = Ret true
     /\ messages w' =
        (messages w ++
         [UserMessage "hello";
          AssistantMessage (response_content Online.answer)
            (response_thinking Online.answer) []])%list
     /\ tokens w' =
        (fst (tokens w) + default 0 (prompt_eval_count Online.answer),
         snd (tokens w) + default 0 (eval_count Online.answer))
     /\ log w' = (log w ++ [EvChat (messages w ++ [UserMessage "hello"])])%list
     /\ fs w' = fs w /\ stdin w' = stdin w
     /\ PERMISSION_MODE w' = PERMISSION_MODE w.
Proof.
  intros w. split; [reflexivity |]. split; [reflexivity |].
  exact (@final_answer_ends_turn Online.online_runtime 0 "hello" w
           Online.answer eq_refl eq_refl).
Defined.

Lemma truncate_output_bounded_witness :
  let text := PyStr.join_nl ["a"; "b"; "c"; "d"] in
  (2 <= 2)%nat
  /\ "last" <> "all"
  /\ ((length (PyStr.split_nl text) <= 2)%nat ->
      truncate_output "last" text 2 = text)
  /\ (length (PyStr.split_nl (truncate_output "last" text 2)) <= 2 + 1)%nat.
Proof.
  intros text.
  assert (H1 : (2 <= 2)%nat) by lia.
  assert (H2 : "last" <> "all") by discriminate.
  split; [exact H1 |]. split; [exact H2 |].
  exact (truncate_output_bounded "last" text 2 H1 H2).
Defined.

Lemma fragments_are_dangerous_witness :
  let w := world DEFAULT ∅ [] in
  In "mkfs." dangerous_fragments
  /\ exists explanation,
      check_dangerous_command
        (VStr ("sudo " +:+ "mkfs." +:+ "ext4 /dev/sda1")) w =
      (Ret (true, explanation), w).
Proof.
  intros w.
  assert (H : In "mkfs." dangerous_fragments) by (cbn; auto).
  split; [exact H |].
  exact (fragments_are_dangerous "mkfs." "sudo " "ext4 /dev/sda1" w H).
Defined.

Lemma blocklist_ignores_case_witness :
  PyStr.lower "RM -Rf /" = PyStr.lower "rm -rf /"
  /\ first_match DANGEROUS_PATTERNS "RM -Rf /" =
     first_match DANGEROUS_PATTERNS "rm -rf /".
Proof.
  assert (H : PyStr.lower "RM -Rf /" = PyStr.lower "rm -rf /") by reflexivity.
  split; [exact H |].
  exact (blocklist_ignores_case "RM -Rf /" "rm -rf /" H).
Defined.

Lemma mode_command_cycles_witness :
  let w := world ACCEPT_EDITS notes [Line "  /MODE now"; Line "hello"] in
  stdin w = Line "  /MODE now" :: [Line "hello"]
  /\ slash_command "  /MODE now" = Some "/mode"
  /\ repl_step 3 "minimax-m2.1:cloud" w =
     (Ret (Continue, "minimax-m2.1:cloud"),
      with_mode (next_mode (PERMISSION_MODE w)) (with_stdin [Line "hello"] w))
  /\ next_mode (next_mode (next_mode (PERMISSION_MODE w))) = PERMISSION_MODE w.
Proof.
  intros w.
  assert (H : slash_command "  /MODE now" = Some "/mode")
    by (vm_compute; reflexivity).
  split; [reflexivity |]. split; [exact H |].
  exact (mode_command_cycles 3 "minimax-m2.1:cloud" "  /MODE now"
           [Line "hello"] w eq_refl H).
Defined.

Lemma clear_command_resets_history_witness :
  let w := with_messages [UserMessage "earlier"]
             (world YOLO notes [Line "/clear"]) in
  stdin w = Line "/clear" :: []
  /\ slash_command "/clear" = Some "/clear"
  /\ repl_step 3 "minimax-m2.1:cloud" w =
     (Ret (Continue, "minimax-m2.1:cloud"),
      with_tokens (0, 0) (with_messages [] (with_stdin [] w))).
Proof.
  intros w.
  assert (H : slash_command "/clear" = Some "/clear")
    by (vm_compute; reflexivity).
  split; [reflexivity |]. split; [exact H |].
  exact (clear_command_resets_history 3 "minimax-m2.1:cloud" "/clear" [] w
           eq_refl H).
Defined.

Lemma other_lines_change_nothing_witness :
  let w := world DEFAULT notes [Line "/frobnicate all"] in
  stdin w = Line "/frobnicate all" :: []
  /\ slash_command "/frobnicate all" = Some "/frobnicate"
  /\ ~ In "/frobnicate" acting_commands
  /\ repl_step 3 "minimax-m2.1:cloud" w =
     (Ret (Continue, "minimax-m2.1:cloud"), with_stdin [] w).
Proof.
  intros w.
  assert (H1 : slash_command "/frobnicate all" = Some "/frobnicate")
    by (vm_compute; reflexivity).
  assert (H2 : ~ In "/frobnicate" acting_commands)
    by (cbn; intuition discriminate).
  split; [reflexivity |]. split; [exact H1 |]. split; [exact H2 |].
  exact (other_lines_change_nothing 3 "minimax-m2.1:cloud" "/frobnicate all"
           [] w eq_refl
           (or_intror (ex_intro _ "/frobnicate" (conj H1 H2)))).
Defined.

Lemma leaving_the_session_witness :
  let w := world DEFAULT notes [Line " Exit "; Line "hello"] in
  PyStr.lower (PyStr.strip " Exit ") = "exit"
  /\ repl_step 3 "minimax-m2.1:cloud" w =
     (Ret (Break, "minimax-m2.1:cloud"), with_stdin (tl (stdin w)) w).
Proof.
  intros w.
  assert (H : PyStr.lower (PyStr.strip " Exit ") = "exit")
    by (vm_compute; reflexivity).
  split; [exact H |].
  exact (leaving_the_session 3 "minimax-m2.1:cloud" w
           (or_intror (or_intror (or_intror H)))).
Defined.

(** A command run by [run_bash] has the terminal of the agent: the line it
    reads is gone for the questions that follow. *)
Lemma shell_reads_terminal_input :
  let w := world YOLO ∅ [Line "y"; Line "later"] in
  let '(r, w') :=
    execute_tool "run_bash" {[ "command" := VStr "head -n 1" ]} w in
  stdin w' = [Line "later"] /\ log w' = [EvShell "head -n 1" 30].
Proof. vm_compute. split; reflexivity. Qed.

End MoreExamples.
